(** * Result rows: [engine/row.py]

    A shallow embedding of [BaseRow], [Row], [LegacyRow], [ROMappingView]
    and [RowMapping] and of the part of the Python object model these
    classes rely on (tuple subscription and slicing, rich comparison,
    dictionary lookup, attribute lookup), followed by the properties of
    the row construct.

    The result metadata object a row points to ([self._parent]) lives in
    another module of the library; it is an interface here, a record of
    the members [row.py] calls. *)

From stdpp Require Import base numbers option list strings countable gmap.
From Stdlib Require Import ZArith Lia.

Set Warnings "-register-all".
Open Scope Z_scope.

(** ** Python values

    The values a row stores and the keys it is subscripted with: [None],
    integers, strings, column objects (compared and hashed by identity),
    slices, tuples and lists.  Booleans and floats, whose equality crosses
    types ([1 == True == 1.0]), are left out, so that [==] is structural
    on this universe. *)

Inductive pyval : Type :=
  | PyNone
  | PyInt (z : Z)
  | PyStr (s : string)
  | PyColumn (id : positive)
  | PySlice (start stop step : option Z)
  | PyTuple (items : list pyval)
  | PyList (items : list pyval).

Section pyval_induction.
Variable P : pyval -> Prop.
Hypothesis HNone : P PyNone.
Hypothesis HInt : forall z, P (PyInt z).
Hypothesis HStr : forall s, P (PyStr s).
Hypothesis HCol : forall c, P (PyColumn c).
Hypothesis HSlice : forall a b c, P (PySlice a b c).
Hypothesis HTuple : forall l, Forall P l -> P (PyTuple l).
Hypothesis HList : forall l, Forall P l -> P (PyList l).

Fixpoint pyval_nested_ind (v : pyval) : P v :=
  let fix all (l : list pyval) : Forall P l :=
    match l with
    | [] => @List.Forall_nil _ P
    | x :: l' => @List.Forall_cons _ P x l' (pyval_nested_ind x) (all l')
    end in
  match v with
  | PyNone => HNone
  | PyInt z => HInt z
  | PyStr s => HStr s
  | PyColumn c => HCol c
  | PySlice a b c => HSlice a b c
  | PyTuple l => HTuple l (all l)
  | PyList l => HList l (all l)
  end.
End pyval_induction.

(** *** [==]

    [seq_eq] is the equality of two tuples or two lists: same length and
    pairwise equal items. *)

Section seq_eq.
Variable item_eq : pyval -> pyval -> bool.

Fixpoint seq_eq (v w : list pyval) : bool :=
  match v, w with
  | [], [] => true
  | x :: v', y :: w' => item_eq x y && seq_eq v' w'
  | _, _ => false
  end.
End seq_eq.

Definition opt_eq (a b : option Z) : bool :=
  match a, b with
  | None, None => true
  | Some x, Some y => x =? y
  | _, _ => false
  end.

(** A tuple never equals a list, a string never equals an integer: values
    of different types are unequal. *)
Fixpoint py_eq (v w : pyval) {struct v} : bool :=
  match v, w with
  | PyNone, PyNone => true
  | PyInt x, PyInt y => x =? y
  | PyStr x, PyStr y => String.eqb x y
  | PyColumn x, PyColumn y => Pos.eqb x y
  | PySlice a1 b1 c1, PySlice a2 b2 c2 =>
      opt_eq a1 a2 && opt_eq b1 b2 && opt_eq c1 c2
  | PyTuple l1, PyTuple l2 => seq_eq py_eq l1 l2
  | PyList l1, PyList l2 => seq_eq py_eq l1 l2
  | _, _ => false
  end.

Definition py_ne (v w : pyval) : bool := negb (py_eq v w).

(** [x in seq]: some item equals [x]. *)
Definition seq_contains (seq : list pyval) (x : pyval) : bool :=
  existsb (fun item => py_eq item x) seq.

(** [list(a) == list(b)] *)
Definition list_eq (a b : list pyval) : bool := seq_eq py_eq a b.

#[global] Instance pyval_eq_dec : EqDecision pyval.
Proof.
  refine (fix go (v w : pyval) {struct v} : Decision (v = w) :=
            let _ : EqDecision pyval := go in
            match v, w with
            | PyNone, PyNone => left _
            | PyInt x, PyInt y => cast_if (decide (x = y))
            | PyStr x, PyStr y => cast_if (decide (x = y))
            | PyColumn x, PyColumn y => cast_if (decide (x = y))
            | PySlice a1 b1 c1, PySlice a2 b2 c2 =>
                cast_if_and3 (decide (a1 = a2)) (decide (b1 = b2))
                             (decide (c1 = c2))
            | PyTuple l1, PyTuple l2 => cast_if (decide (l1 = l2))
            | PyList l1, PyList l2 => cast_if (decide (l1 = l2))
            | _, _ => right _
            end); abstract congruence.
Defined.

(** Values are countable, so they can key a [gmap] (a Python [dict]). *)

Definition pyval_leaf : Type :=
  (unit + Z + string + positive + option Z * option Z * option Z)%type.

Fixpoint pyval_to_tree (v : pyval) : gen_tree pyval_leaf :=
  match v with
  | PyNone => GenLeaf (inl (inl (inl (inl tt))))
  | PyInt z => GenLeaf (inl (inl (inl (inr z))))
  | PyStr s => GenLeaf (inl (inl (inr s)))
  | PyColumn c => GenLeaf (inl (inr c))
  | PySlice a b c => GenLeaf (inr (a, b, c))
  | PyTuple l => GenNode 0 (map pyval_to_tree l)
  | PyList l => GenNode 1 (map pyval_to_tree l)
  end.

Fixpoint pyval_of_tree (t : gen_tree pyval_leaf) : pyval :=
  match t with
  | GenLeaf (inl (inl (inl (inl _)))) => PyNone
  | GenLeaf (inl (inl (inl (inr z)))) => PyInt z
  | GenLeaf (inl (inl (inr s))) => PyStr s
  | GenLeaf (inl (inr c)) => PyColumn c
  | GenLeaf (inr (a, b, c)) => PySlice a b c
  | GenNode O l => PyTuple (map pyval_of_tree l)
  | GenNode _ l => PyList (map pyval_of_tree l)
  end.

#[global] Instance pyval_countable : Countable pyval.
Proof.
  refine (inj_countable' pyval_to_tree pyval_of_tree _).
  intros v.
  induction v as [| | | | |l IH|l IH] using pyval_nested_ind; simpl; auto.
  - f_equal. induction IH as [|x l Hx _ IHl]; simpl; [reflexivity|].
    rewrite Hx. f_equal. exact IHl.
  - f_equal. induction IH as [|x l Hx _ IHl]; simpl; [reflexivity|].
    rewrite Hx. f_equal. exact IHl.
Defined.

(** [hash(v)] succeeds: slices and lists are unhashable (it is how
    [_subscript_impl] tells a slice), and so is a tuple holding one. *)
Fixpoint hashable (v : pyval) : bool :=
  match v with
  | PySlice _ _ _ | PyList _ => false
  | PyTuple l => forallb hashable l
  | _ => true
  end.

Definition isinstance_int (v : pyval) : bool :=
  match v with PyInt _ => true | _ => false end.

Definition isinstance_slice (v : pyval) : bool :=
  match v with PySlice _ _ _ => true | _ => false end.

Definition is_None (v : pyval) : bool :=
  match v with PyNone => true | _ => false end.

(** ** Exceptions and warnings

    An exception carries its first argument ([e.args[0]]) where the code
    reads it or a caller is told what was looked up. *)

Inductive exn : Type :=
  | KeyError (arg : pyval)
  | AttributeError (arg : pyval)
  | AmbiguousColumnName (arg : pyval)
  | TypeError
  | IndexError
  | ValueError
  | NotImplementedError.

Inductive warning : Type :=
  | Warning (category : string) (arg : pyval).

#[global] Instance exn_eq_dec : EqDecision exn.
Proof. solve_decision. Defined.

#[global] Instance warning_eq_dec : EqDecision warning.
Proof. solve_decision. Defined.

(** A computation emits warnings, in order, and then returns a value or
    raises. *)
Definition M (A : Type) : Type := (list warning * (exn + A))%type.

#[global] Instance M_ret : MRet M := fun A a => ([], inr a).

#[global] Instance M_bind : MBind M := fun A B f m =>
  match m with
  | (ws, inl e) => (ws, inl e)
  | (ws, inr a) => let '(ws', r) := f a in (ws ++ ws', r)
  end.

Definition raise {A} (e : exn) : M A := ([], inl e).

Definition warn (w : warning) : M unit := ([w], inr tt).

(** A computation that emits no warning. *)
Definition lift {A} (r : exn + A) : M A := ([], r).

Definition warnings {A} (m : M A) : list warning := fst m.
Definition outcome {A} (m : M A) : exn + A := snd m.

(** [try: m  except KeyError as e: h e] *)
Definition except_KeyError {A} (m : M A) (h : pyval -> M A) : M A :=
  match m with
  | (ws, inl (KeyError arg)) => let '(ws', r) := h arg in (ws ++ ws', r)
  | _ => m
  end.

Fixpoint mapM {A B} (f : A -> M B) (l : list A) : M (list B) :=
  match l with
  | [] => mret []
  | x :: l' => y ← f x; ys ← mapM f l'; mret (y :: ys)
  end.

(** ** Tuples and dictionaries *)

(** [d[key]]: hashing the key comes first. *)
Definition dict_getitem {V} (d : gmap pyval V) (key : pyval) : exn + V :=
  if hashable key then
    match d !! key with
    | Some v => inr v
    | None => inl (KeyError key)
    end
  else inl TypeError.

(** [slice.indices(len)] followed by the length of the selection: the
    first index, the step, and the number of items selected. *)
Definition slice_indices (start stop step : option Z) (len : Z)
  : exn + (Z * Z * Z) :=
  let step := default 1 step in
  if step =? 0 then inl ValueError
  else
    let lower := if step <? 0 then -1 else 0 in
    let upper := if step <? 0 then len - 1 else len in
    let clamp (i : Z) :=
      if i <? 0 then Z.max (i + len) lower else Z.min i upper in
    let start :=
      match start with
      | None => if step <? 0 then upper else lower
      | Some i => clamp i
      end in
    let stop :=
      match stop with
      | None => if step <? 0 then lower else upper
      | Some i => clamp i
      end in
    let slicelength :=
      if step <? 0 then
        if stop <? start then (start - stop - 1) / (- step) + 1 else 0
      else
        if start <? stop then (stop - start - 1) / step + 1 else 0 in
    inr (start, step, slicelength).

(** The items at [start], [start + step], ... *)
Definition slice_items (t : list pyval) (start step slicelength : Z)
  : list pyval :=
  omap (fun i : nat => t !! Z.to_nat (start + Z.of_nat i * step))
       (seq 0 (Z.to_nat slicelength)).

(** [t[key]] on a tuple [t]: an integer counts from the end when
    negative; a slice selects a tuple; nothing else is an index. *)
Definition tuple_getitem (t : list pyval) (key : pyval) : exn + pyval :=
  match key with
  | PyInt i =>
      let n := Z.of_nat (length t) in
      let i := if i <? 0 then i + n else i in
      if (i <? 0) || (n <=? i) then inl IndexError
      else
        match t !! Z.to_nat i with
        | Some v => inr v
        | None => inl IndexError
        end
  | PySlice start stop step =>
      match slice_indices start stop step (Z.of_nat (length t)) with
      | inl e => inl e
      | inr (start, step, slicelength) =>
          inr (PyTuple (slice_items t start step slicelength))
      end
  | _ => inl TypeError
  end.

(** *** Rich comparison

    [operator.lt], [operator.le], ... as [Row._op] receives them. *)

Module operator.
Inductive t : Type := lt | le | eq | ne | gt | ge.

(** The answer of an operator, given how the left operand compares with
    the right one. *)
Definition holds (op : t) (c : comparison) : bool :=
  match op, c with
  | lt, Lt | le, Lt | le, Eq | eq, Eq
  | ne, Lt | ne, Gt | gt, Gt | ge, Gt | ge, Eq => true
  | _, _ => false
  end.
End operator.

(** Operands with no ordering of their own: [==] and [!=] fall back on
    identity, the ordering operators raise [TypeError]. *)
Definition default_richcompare (op : operator.t) (v w : pyval) : exn + bool :=
  match op with
  | operator.eq => inr (py_eq v w)
  | operator.ne => inr (py_ne v w)
  | _ => inl TypeError
  end.

(** Two tuples (or two lists): the first position where the items differ
    decides, through the items' own comparison; if one sequence runs out
    first, the lengths decide.  The lengths left after a common prefix
    compare as the full lengths do. *)
Section seq_richcompare.
Variable item_richcompare : operator.t -> pyval -> pyval -> exn + bool.

Fixpoint seq_richcompare (op : operator.t) (v w : list pyval)
  : exn + bool :=
  match v, w with
  | x :: v', y :: w' =>
      if py_eq x y then seq_richcompare op v' w'
      else
        match op with
        | operator.eq => inr false
        | operator.ne => inr true
        | _ => item_richcompare op x y
        end
  | _, _ =>
      inr (operator.holds op (Z.of_nat (length v) ?= Z.of_nat (length w)))
  end.
End seq_richcompare.

Definition opt_to_py (o : option Z) : pyval :=
  match o with Some z => PyInt z | None => PyNone end.

Definition atom_richcompare (op : operator.t) (v w : pyval) : exn + bool :=
  match v, w with
  | PyInt x, PyInt y => inr (operator.holds op (x ?= y))
  | PyStr x, PyStr y => inr (operator.holds op (String.compare x y))
  | _, _ => default_richcompare op v w
  end.

(** [op(v, w)]; slices compare as their [(start, stop, step)] tuples. *)
Fixpoint py_richcompare (op : operator.t) (v w : pyval) {struct v}
  : exn + bool :=
  match v, w with
  | PyTuple l1, PyTuple l2 => seq_richcompare py_richcompare op l1 l2
  | PyList l1, PyList l2 => seq_richcompare py_richcompare op l1 l2
  | PySlice a1 b1 c1, PySlice a2 b2 c2 =>
      seq_richcompare atom_richcompare op
        [opt_to_py a1; opt_to_py b1; opt_to_py c1]
        [opt_to_py a2; opt_to_py b2; opt_to_py c2]
  | _, _ => atom_richcompare op v w
  end.

(** The one-character strings a string iterates over. *)
Fixpoint str_chars (s : string) : list pyval :=
  match s with
  | EmptyString => []
  | String c s' => PyStr (String c EmptyString) :: str_chars s'
  end.

(** [list(v)] for a value [v]: tuples, lists and strings are iterable. *)
Definition py_list (v : pyval) : exn + list pyval :=
  match v with
  | PyTuple l | PyList l => inr l
  | PyStr s => inr (str_chars s)
  | _ => inl TypeError
  end.

(** ** The result metadata: [self._parent]

    The members of the metadata object that [row.py] reads or calls.  A
    resolution record ([rec]) is a tuple whose item [MD_INDEX] is the
    position of the column in the row, or [None] for an ambiguous key.
    The methods are the collaborator's: they may warn and raise as they
    see fit, and [_contains] is handed the row as its values. *)

Definition MD_INDEX : Z := 0.

Module ResultMetaData.
Record t : Type := {
  keys : list pyval;
  _keymap : gmap pyval (list pyval);
  _key_fallback : pyval -> M (list pyval);
  _raise_for_ambiguous_column_name : list pyval -> M unit;
  _warn_for_nonint : pyval -> M unit;
  _has_key : pyval -> M bool;
  _contains : pyval -> list pyval -> M bool
}.
End ResultMetaData.

(** ** Objects *)

Inductive row_class : Type := class_Row | class_LegacyRow.

(** [__slots__ = ("_parent", "_data", "_keymap")] *)
Record row_object : Type := {
  __class__ : row_class;
  _parent : ResultMetaData.t;
  _data : list pyval;
  _keymap : gmap pyval (list pyval)
}.

(** [RowMapping.__slots__ = ("row",)] *)
Record mapping_object : Type := { row : row_object }.

(** [ROMappingView.__slots__ = ("_mapping", "_items")] *)
Record view_object : Type := {
  _mapping : mapping_object;
  _items : list pyval
}.

(** The pickled state: a [dict] with at most the keys ["_parent"] and
    ["_data"]. *)
Record state : Type := {
  state__parent : option ResultMetaData.t;
  state__data : option (list pyval)
}.

(** A column processor, or [None]. *)
Definition processor : Type := option (pyval -> M pyval).

(** [proc(value) if proc else value] *)
Definition convert (proc : processor) (value : pyval) : M pyval :=
  match proc with
  | Some proc => proc value
  | None => mret value
  end.

(** The right operand of a row comparison. *)
Inductive operand : Type :=
  | OtherRow (r : row_object)
  | OtherValue (v : pyval).

(** What a view is compared with. *)
Inductive iterable : Type :=
  | IterValue (v : pyval)
  | IterRow (r : row_object)
  | IterMapping (m : mapping_object)
  | IterView (v : view_object).

(** ** [class BaseRow] (the pure Python version) *)

Module BaseRow.

(** [zip] stops at the shorter of [processors] and [data]. *)
Definition __init__ (cls : row_class) (parent : ResultMetaData.t)
    (processors : list processor) (keymap : gmap pyval (list pyval))
    (data : list pyval) : M row_object :=
  values ← mapM (fun '(proc, value) => convert proc value)
                (zip processors data);
  mret {| __class__ := cls; _parent := parent;
          _data := values; _keymap := keymap |}.

(** The reconstructor of the returned pair is [rowproxy_reconstructor];
    [__getstate__] is the subclass's. *)
Definition __reduce__ (__getstate__ : row_object -> state)
    (self : row_object) : row_class * state :=
  (__class__ self, __getstate__ self).

Definition __iter__ (self : row_object) : list pyval := _data self.

Definition _values_impl (self : row_object) : list pyval := __iter__ self.

Definition __len__ (self : row_object) : nat := length (_data self).

(** [hash] is the interpreter's. *)
Definition __hash__ (hash : pyval -> exn + Z) (self : row_object)
  : exn + Z :=
  hash (PyTuple (_data self)).

Definition _subscript_impl (self : row_object) (key : pyval)
    (ismapping : bool) : M pyval :=
  let resolved (rec : list pyval) : M pyval :=
    mdindex ← lift (tuple_getitem rec (PyInt MD_INDEX));
    _ ← (if is_None mdindex then
           ResultMetaData._raise_for_ambiguous_column_name (_parent self) rec
         else if negb ismapping && py_ne mdindex key
                 && negb (isinstance_int key) then
           ResultMetaData._warn_for_nonint (_parent self) key
         else mret tt);
    lift (tuple_getitem (_data self) mdindex) in
  match dict_getitem (_keymap self) key with
  | inr rec => resolved rec
  | inl (KeyError _) =>
      rec ← ResultMetaData._key_fallback (_parent self) key;
      resolved rec
  | inl TypeError =>
      if isinstance_slice key then lift (tuple_getitem (_data self) key)
      else raise TypeError
  | inl e => raise e
  end.

Definition _get_by_key_impl (self : row_object) (key : pyval) : M pyval :=
  _subscript_impl self key false.

Definition _get_by_key_impl_mapping (self : row_object) (key : pyval)
  : M pyval :=
  _subscript_impl self key true.

Definition __getattr__ (self : row_object) (name : string) : M pyval :=
  except_KeyError (_get_by_key_impl_mapping self (PyStr name))
                  (fun arg => raise (AttributeError arg)).

End BaseRow.

(** ** [class Row]

    The module is [Row_], so that it masks no library called [Row]. *)

Module Row_.

Definition _mapping (self : row_object) : mapping_object :=
  {| row := self |}.

Definition __contains__ (self : row_object) (key : pyval) : bool :=
  seq_contains (_data self) key.

Definition __getitem__ (self : row_object) (key : pyval) : exn + pyval :=
  tuple_getitem (_data self) key.

Definition __getstate__ (self : row_object) : state :=
  {| state__parent := Some (_parent self);
     state__data := Some (_data self) |}.

(** On the fresh object [cls.__new__(cls)]. *)
Definition __setstate__ (cls : row_class) (st : state)
  : exn + row_object :=
  match state__parent st with
  | None => inl (KeyError (PyStr "_parent"))
  | Some parent =>
      match state__data st with
      | None => inl (KeyError (PyStr "_data"))
      | Some data =>
          inr {| __class__ := cls; _parent := parent; _data := data;
                 _keymap := ResultMetaData._keymap parent |}
      end
  end.

Definition __reduce__ : row_object -> row_class * state :=
  BaseRow.__reduce__ __getstate__.

Definition _op (self : row_object) (other : operand) (op : operator.t)
  : exn + bool :=
  match other with
  | OtherRow other =>
      py_richcompare op (PyTuple (BaseRow.__iter__ self))
                        (PyTuple (BaseRow.__iter__ other))
  | OtherValue other =>
      py_richcompare op (PyTuple (BaseRow.__iter__ self)) other
  end.

Definition __hash__ := BaseRow.__hash__.

Definition __lt__ self other := _op self other operator.lt.
Definition __le__ self other := _op self other operator.le.
Definition __ge__ self other := _op self other operator.ge.
Definition __gt__ self other := _op self other operator.gt.
Definition __eq__ self other := _op self other operator.eq.
Definition __ne__ self other := _op self other operator.ne.

Definition _fields (self : row_object) : pyval :=
  PyTuple (filter (fun k => k <> PyNone)
                  (ResultMetaData.keys (_parent self))).

Definition _replace (self : row_object) : exn + pyval :=
  inl NotImplementedError.

Definition _field_defaults (self : row_object) : exn + pyval :=
  inl NotImplementedError.

End Row_.

(** ** [class LegacyRow(Row)] *)

Module LegacyRow.

Definition __contains__ (self : row_object) (key : pyval) : M bool :=
  ResultMetaData._contains (_parent self) key (_data self).

Definition __getitem__ (self : row_object) (key : pyval) : M pyval :=
  BaseRow._get_by_key_impl self key.

End LegacyRow.

(** [rowproxy_reconstructor], the version used without the C extension. *)
Definition rowproxy_reconstructor (cls : row_class) (st : state)
  : exn + row_object :=
  Row_.__setstate__ cls st.

(** ** [class RowMapping]

    A view is built here as the record [ROMappingView.__init__] fills. *)

Module RowMapping.

Definition __init__ (row : row_object) : mapping_object := {| row := row |}.

Definition __getitem__ (self : mapping_object) (key : pyval) : M pyval :=
  BaseRow._get_by_key_impl_mapping (row self) key.

Definition __iter__ (self : mapping_object) : list pyval :=
  filter (fun k => k <> PyNone)
         (ResultMetaData.keys (_parent (row self))).

Definition __len__ (self : mapping_object) : nat :=
  BaseRow.__len__ (row self).

Definition __contains__ (self : mapping_object) (key : pyval) : M bool :=
  ResultMetaData._has_key (_parent (row self)) key.

Definition keys (self : mapping_object) : view_object :=
  {| _mapping := self;
     _items := filter (fun k => k <> PyNone)
                      (ResultMetaData.keys (_parent (row self))) |}.

Definition items (self : mapping_object) : M view_object :=
  pairs ← mapM (fun key => v ← __getitem__ self key;
                           mret (PyTuple [key; v]))
               (_items (keys self));
  mret {| _mapping := self; _items := pairs |}.

Definition values (self : mapping_object) : view_object :=
  {| _mapping := self; _items := BaseRow._values_impl (row self) |}.

End RowMapping.

(** [list(other)] *)
Definition list_of (other : iterable) : exn + list pyval :=
  match other with
  | IterValue v => py_list v
  | IterRow r => inr (BaseRow.__iter__ r)
  | IterMapping m => inr (RowMapping.__iter__ m)
  | IterView v => inr (_items v)
  end.

(** ** [class ROMappingView] *)

Module ROMappingView.

Definition __init__ (mapping : mapping_object) (items : list pyval)
  : view_object :=
  {| _mapping := mapping; _items := items |}.

Definition __len__ (self : view_object) : nat := length (_items self).

Definition __iter__ (self : view_object) : list pyval := _items self.

Definition __contains__ (self : view_object) (item : pyval) : bool :=
  seq_contains (_items self) item.

Definition __eq__ (self : view_object) (other : iterable) : exn + bool :=
  match list_of other with
  | inl e => inl e
  | inr l => inr (list_eq l (__iter__ self))
  end.

Definition __ne__ (self : view_object) (other : iterable) : exn + bool :=
  match list_of other with
  | inl e => inl e
  | inr l => inr (negb (list_eq l (__iter__ self)))
  end.

End ROMappingView.

(** ** Attribute access on a row

    [row.name] looks [name] up on the class first: [__getattr__] is only
    called for a name that the classes of the row do not bind.  The names
    below are those bound in the class bodies of this module; [inherited]
    tells the names the row gets from the bases defined elsewhere
    ([Sequence] and [object]). *)

Definition BaseRow_namespace : list string :=
  ["__slots__"; "_parent"; "_data"; "_keymap"; "__init__"; "__reduce__";
   "_values_impl"; "__iter__"; "__len__"; "__hash__"; "_subscript_impl";
   "_get_by_key_impl"; "_get_by_key_impl_mapping"; "__getattr__"]%string.

Definition Row_namespace : list string :=
  ["__slots__"; "_mapping"; "__contains__"; "__getitem__"; "__getstate__";
   "__setstate__"; "_op"; "__hash__"; "__lt__"; "__le__"; "__ge__";
   "__gt__"; "__eq__"; "__ne__"; "__repr__"; "keys"; "_fields"; "_asdict";
   "_replace"; "_field_defaults"]%string.

Definition LegacyRow_namespace : list string :=
  ["__contains__"; "__getitem__"; "has_key"; "items"; "iterkeys";
   "itervalues"; "values"]%string.

Definition class_binds (cls : row_class) (name : string) : bool :=
  bool_decide (name ∈ match cls with
                      | class_Row => Row_namespace ++ BaseRow_namespace
                      | class_LegacyRow =>
                          LegacyRow_namespace ++ Row_namespace
                            ++ BaseRow_namespace
                      end).

(** What [row.name] finds: a member of the class (a method, a property or
    a slot), or what [__getattr__] returned. *)
Inductive attribute : Type :=
  | ClassMember (name : string)
  | ColumnValue (v : pyval).

Definition getattr (inherited : string -> bool) (self : row_object)
    (name : string) : M attribute :=
  if class_binds (__class__ self) name || inherited name
  then mret (ClassMember name)
  else v ← BaseRow.__getattr__ self name; mret (ColumnValue v).

(** ** A sample metadata object *)

(** Modelled from the spec: the key-containment predicate of the metadata
    collaborator, whose class is not part of this module: membership in
    the key map. *)
Definition sample_has_key (keymap : gmap pyval (list pyval)) (key : pyval)
  : bool :=
  match dict_getitem keymap key with
  | inr _ => true
  | inl _ => false
  end.

(** Modelled from the spec: the metadata collaborator, whose class is not
    part of this module.  Its fallback resolver finds nothing, its
    ambiguous-column raiser always fails and names the key that the
    record pairs with the position, its non-integer warning is a warning
    and nothing else, and its legacy containment test is the value-or-key
    test. *)
Definition sample_metadata (names : list pyval)
    (keymap : gmap pyval (list pyval)) : ResultMetaData.t :=
  {| ResultMetaData.keys := names;
     ResultMetaData._keymap := keymap;
     ResultMetaData._key_fallback := fun key => raise (KeyError key);
     ResultMetaData._raise_for_ambiguous_column_name := fun rec =>
       raise (AmbiguousColumnName (default PyNone (rec !! 1%nat)));
     ResultMetaData._warn_for_nonint := fun key =>
       warn (Warning "RemovedIn20Warning" key);
     ResultMetaData._has_key := fun key => mret (sample_has_key keymap key);
     ResultMetaData._contains := fun key values =>
       mret (sample_has_key keymap key || seq_contains values key) |}.

(** The key map of a result with the columns [a], [b], [c]. *)
Definition abc_keymap : gmap pyval (list pyval) :=
  list_to_map
    [(PyStr "a", [PyInt 0; PyStr "a"]); (PyInt 0, [PyInt 0; PyStr "a"]);
     (PyStr "b", [PyInt 1; PyStr "b"]); (PyInt 1, [PyInt 1; PyStr "b"]);
     (PyStr "c", [PyInt 2; PyStr "c"]); (PyInt 2, [PyInt 2; PyStr "c"])].

Definition abc_metadata : ResultMetaData.t :=
  sample_metadata [PyStr "a"; PyStr "b"; PyStr "c"] abc_keymap.

(** The row [(1, 2, 3)] of that result. *)
Definition abc_row (cls : row_class) : row_object :=
  {| __class__ := cls; _parent := abc_metadata;
     _data := [PyInt 1; PyInt 2; PyInt 3]; _keymap := abc_keymap |}.

(** A result with two columns named [dup] and a column [x]: the name
    [dup] is ambiguous and the two positions are unlabeled. *)
Definition dup_keymap : gmap pyval (list pyval) :=
  list_to_map
    [(PyStr "dup", [PyNone; PyStr "dup"]);
     (PyInt 0, [PyInt 0; PyStr "dup"]); (PyInt 1, [PyInt 1; PyStr "dup"]);
     (PyStr "x", [PyInt 2; PyStr "x"]); (PyInt 2, [PyInt 2; PyStr "x"])].

Definition dup_metadata : ResultMetaData.t :=
  sample_metadata [PyNone; PyNone; PyStr "x"] dup_keymap.

Definition dup_row (cls : row_class) : row_object :=
  {| __class__ := cls; _parent := dup_metadata;
     _data := [PyInt 10; PyInt 20; PyInt 30]; _keymap := dup_keymap |}.

(** ** Key resolution

    How [_subscript_impl] comes by the record of a key: [self._keymap]
    has it, or the key is hashable and missing and the metadata's fallback
    returns a record, after the warnings [ws]. *)

Inductive resolves_to (self : row_object) (key : pyval)
  : list warning -> list pyval -> Prop :=
  | resolves_keymap rec :
      dict_getitem (_keymap self) key = inr rec ->
      resolves_to self key [] rec
  | resolves_fallback arg ws rec :
      dict_getitem (_keymap self) key = inl (KeyError arg) ->
      ResultMetaData._key_fallback (_parent self) key = (ws, inr rec) ->
      resolves_to self key ws rec.


(** A result whose only column is named [keys], and its row [(7,)]. *)
Definition keys_keymap : gmap pyval (list pyval) :=
  list_to_map
    [(PyStr "keys", [PyInt 0; PyStr "keys"]);
     (PyInt 0, [PyInt 0; PyStr "keys"])].

Definition keys_row : row_object :=
  {| __class__ := class_Row;
     _parent := sample_metadata [PyStr "keys"] keys_keymap;
     _data := [PyInt 7]; _keymap := keys_keymap |}.

(** What [row.name] is when the lookup [row._mapping[name]] is [m]: the
    same warnings, the same value, and [AttributeError] for [KeyError]. *)
Definition as_attribute (m : M pyval) : M attribute :=
  match m with
  | (ws, inr v) => (ws, inr (ColumnValue v))
  | (ws, inl (KeyError arg)) => (ws, inl (AttributeError arg))
  | (ws, inl e) => (ws, inl e)
  end.


(** ** Lexicographic comparison, as specified

    The comparison of two value sequences in the words of the
    specification: the first position where the sequences differ decides,
    by the comparison of the two items found there (which are unequal, so
    [==] is false and [!=] true); when neither differs from the other
    before one of them ends, sequences of the same length are equal and
    otherwise the strict prefix is the lesser. *)

Definition decided_by (op : operator.t) (x y : pyval) : exn + bool :=
  match op with
  | operator.eq => inr false
  | operator.ne => inr true
  | _ => py_richcompare op x y
  end.

Inductive lexicographic (op : operator.t)
  : list pyval -> list pyval -> exn + bool -> Prop :=
  | lex_differ p x y v w :
      x <> y ->
      lexicographic op (p ++ x :: v) (p ++ y :: w) (decided_by op x y)
  | lex_same v :
      lexicographic op v v (inr (operator.holds op Eq))
  | lex_prefix_left v y w :
      lexicographic op v (v ++ y :: w) (inr (operator.holds op Lt))
  | lex_prefix_right v x w :
      lexicographic op (v ++ x :: w) v (inr (operator.holds op Gt)).


(** The lookup of [_subscript_impl] once the record of the key is known:
    the body of its local [resolved]. *)
Definition resolved_lookup (self : row_object) (key : pyval)
    (ismapping : bool) (rec : list pyval) : M pyval :=
  mdindex ← lift (tuple_getitem rec (PyInt MD_INDEX));
  _ ← (if is_None mdindex then
         ResultMetaData._raise_for_ambiguous_column_name (_parent self) rec
       else if negb ismapping && py_ne mdindex key
               && negb (isinstance_int key) then
         ResultMetaData._warn_for_nonint (_parent self) key
       else mret tt);
  lift (tuple_getitem (_data self) mdindex).

(** [x] does what [y] does and, at the end, may warn some more. *)
Definition warns_more {A} (x y : M A) : Prop :=
  outcome x = outcome y /\ exists ws, warnings x = warnings y ++ ws.


(** ** [Row._asdict] *)

(** [d[key] = value] *)
Definition dict_setitem {V} (d : gmap pyval V) (key : pyval) (value : V)
  : exn + gmap pyval V :=
  if hashable key then inr (<[key := value]> d) else inl TypeError.

(** [dict(mapping)] for a mapping that is no [dict]: it is asked for its
    [keys()], and each key is looked up with [mapping[key]] and stored, in
    turn. *)
Fixpoint dict_update (getitem : pyval -> M pyval) (keys : list pyval)
    (d : gmap pyval pyval) : M (gmap pyval pyval) :=
  match keys with
  | [] => mret d
  | key :: keys' =>
      value ← getitem key;
      d' ← lift (dict_setitem d key value);
      dict_update getitem keys' d'
  end.

(** [return dict(self._mapping)] *)
Definition _asdict (self : row_object) : M (gmap pyval pyval) :=
  dict_update (RowMapping.__getitem__ (Row_._mapping self))
              (ROMappingView.__iter__ (RowMapping.keys (Row_._mapping self)))
              ∅.

(** The key map as a result builds it for its rows: each name in the
    metadata's [keys] is a key of the row's key map, and its record holds
    the position of the name. *)
Definition names_resolve_in_place (self : row_object) : Prop :=
  forall (i : nat) (k : pyval),
    ResultMetaData.keys (_parent self) !! i = Some k ->
    k <> PyNone ->
    exists rec,
      dict_getitem (_keymap self) k = inr rec
      /\ tuple_getitem rec (PyInt MD_INDEX) = inr (PyInt (Z.of_nat i)).

(** The pair [(key, value)]. *)
Definition item_pair (kv : pyval * pyval) : pyval := PyTuple [kv.1; kv.2].

(** The outcome with [not] applied to the answer. *)
Definition negated (r : exn + bool) : exn + bool :=
  match r with
  | inl e => inl e
  | inr b => inr (negb b)
  end.



Definition mirror (op : operator.t) : operator.t :=
  match op with
  | operator.lt => operator.gt
  | operator.le => operator.ge
  | operator.gt => operator.lt
  | operator.ge => operator.le
  | op => op
  end.

(** * Properties *)

(** ** Equality of values

    [==] on this universe is equality of the values. *)

Lemma opt_eq_spec a b : opt_eq a b = true <-> a = b.
Proof.
  destruct a as [x|], b as [y|]; simpl; try (split; congruence).
  rewrite Z.eqb_eq. split; congruence.
Qed.

Lemma seq_eq_spec (eqb : pyval -> pyval -> bool) (v : list pyval) :
  Forall (fun x => forall y, eqb x y = true <-> x = y) v ->
  forall w, seq_eq eqb v w = true <-> v = w.
Proof.
  induction 1 as [|x v Hx _ IH]; intros [|y w]; simpl; try (split; congruence).
  rewrite andb_true_iff, Hx, IH. split; [intros [-> ->]; reflexivity|].
  intros [= -> ->]; auto.
Qed.

Lemma py_eq_spec v w : py_eq v w = true <-> v = w.
Proof.
  revert w. induction v as [|x|s|c|a1 b1 c1|l IH|l IH] using pyval_nested_ind;
    intros [|y|t|d|a2 b2 c2|m|m]; simpl; try (split; congruence).
  - rewrite Z.eqb_eq. split; congruence.
  - rewrite String.eqb_eq. split; congruence.
  - rewrite Pos.eqb_eq. split; congruence.
  - rewrite !andb_true_iff, !opt_eq_spec. split; [intros [[-> ->] ->]; reflexivity|].
    intros [= -> -> ->]; auto.
  - rewrite (seq_eq_spec py_eq l IH). split; congruence.
  - rewrite (seq_eq_spec py_eq l IH). split; congruence.
Qed.

Lemma py_eq_refl v : py_eq v v = true.
Proof. apply py_eq_spec; reflexivity. Qed.

Lemma py_eq_false v w : py_eq v w = false <-> v <> w.
Proof.
  rewrite <- py_eq_spec. destruct (py_eq v w); split; congruence.
Qed.

Lemma list_eq_spec a b : list_eq a b = true <-> a = b.
Proof.
  apply seq_eq_spec. apply Forall_forall. intros x _ y. apply py_eq_spec.
Qed.

Lemma seq_contains_spec seq x : seq_contains seq x = true <-> In x seq.
Proof.
  unfold seq_contains. rewrite existsb_exists. split.
  - intros (y & Hy & Heq). apply py_eq_spec in Heq. subst. exact Hy.
  - intros H. exists x. split; [exact H | apply py_eq_refl].
Qed.

(** ** The rows of the sample results *)

Example abc_row_getitem_0 :
  Row_.__getitem__ (abc_row class_Row) (PyInt 0) = inr (PyInt 1).
Proof. vm_compute. reflexivity. Qed.

Example abc_row_getitem_slice :
  Row_.__getitem__ (abc_row class_Row) (PySlice (Some 1) (Some 3) None)
  = inr (PyTuple [PyInt 2; PyInt 3]).
Proof. vm_compute. reflexivity. Qed.

Example abc_mapping_getitem_a :
  RowMapping.__getitem__ (Row_._mapping (abc_row class_Row)) (PyStr "a")
  = ([], inr (PyInt 1)).
Proof. vm_compute. reflexivity. Qed.

Example abc_legacy_getitem_a :
  LegacyRow.__getitem__ (abc_row class_LegacyRow) (PyStr "a")
  = ([Warning "RemovedIn20Warning" (PyStr "a")], inr (PyInt 1)).
Proof. vm_compute. reflexivity. Qed.

Example dup_mapping_getitem_dup :
  RowMapping.__getitem__ (Row_._mapping (dup_row class_Row)) (PyStr "dup")
  = ([], inl (AmbiguousColumnName (PyStr "dup"))).
Proof. vm_compute. reflexivity. Qed.

Example abc_row_lt :
  Row_.__lt__ {| __class__ := class_Row; _parent := abc_metadata;
                _data := [PyInt 1; PyInt 2]; _keymap := abc_keymap |}
             (OtherRow {| __class__ := class_Row; _parent := abc_metadata;
                          _data := [PyInt 1; PyInt 3];
                          _keymap := abc_keymap |})
  = inr true.
Proof. vm_compute. reflexivity. Qed.

(** ** Equality through rich comparison *)

Lemma seq_richcompare_eq cmp v w :
  seq_richcompare cmp operator.eq v w = inr (seq_eq py_eq v w).
Proof.
  revert w. induction v as [|x v IH]; intros [|y w]; simpl; try reflexivity.
  destruct (py_eq x y); simpl; [apply IH | reflexivity].
Qed.

Lemma seq_richcompare_ne cmp v w :
  seq_richcompare cmp operator.ne v w = inr (negb (seq_eq py_eq v w)).
Proof.
  revert w. induction v as [|x v IH]; intros [|y w]; simpl; try reflexivity.
  destruct (py_eq x y); simpl; [apply IH | reflexivity].
Qed.

Lemma py_eq_opt_to_py a b : py_eq (opt_to_py a) (opt_to_py b) = opt_eq a b.
Proof. destruct a, b; reflexivity. Qed.

Lemma string_compare_refl s : String.compare s s = Eq.
Proof.
  pose proof (String.compare_antisym s s) as H.
  destruct (String.compare s s); simpl in H; congruence.
Qed.

Lemma holds_eq_string x y :
  operator.holds operator.eq (String.compare x y) = String.eqb x y.
Proof.
  destruct (String.eqb x y) eqn:E.
  - apply String.eqb_eq in E. subst.
    rewrite string_compare_refl. reflexivity.
  - destruct (String.compare x y) eqn:C; try reflexivity.
    apply String.compare_eq_iff in C. subst.
    rewrite String.eqb_refl in E. discriminate E.
Qed.

Lemma holds_eq_Z x y : operator.holds operator.eq (x ?= y) = (x =? y).
Proof.
  destruct (Z.eqb_spec x y) as [->|Hne].
  - rewrite Z.compare_refl. reflexivity.
  - destruct (x ?= y) eqn:C; try reflexivity.
    apply Z.compare_eq in C. contradiction.
Qed.

Lemma holds_ne (c : comparison) :
  operator.holds operator.ne c = negb (operator.holds operator.eq c).
Proof. destruct c; reflexivity. Qed.

Lemma py_richcompare_eq v w :
  py_richcompare operator.eq v w = inr (py_eq v w).
Proof.
  destruct v, w; cbn -[operator.holds]; try reflexivity.
  - f_equal. apply holds_eq_Z.
  - f_equal. apply holds_eq_string.
  - destruct start, start0, stop, stop0, step, step0; simpl; try reflexivity;
      repeat (match goal with |- context [?a =? ?b] => destruct (a =? b) end;
              simpl; try reflexivity).
  - apply seq_richcompare_eq.
  - apply seq_richcompare_eq.
Qed.

Lemma py_richcompare_ne v w :
  py_richcompare operator.ne v w = inr (py_ne v w).
Proof.
  unfold py_ne. destruct v, w; cbn -[operator.holds]; try reflexivity.
  - f_equal. rewrite holds_ne, holds_eq_Z. reflexivity.
  - f_equal. rewrite holds_ne, holds_eq_string. reflexivity.
  - destruct start, start0, stop, stop0, step, step0; simpl; try reflexivity;
      repeat (match goal with |- context [?a =? ?b] => destruct (a =? b) end;
              simpl; try reflexivity).
  - apply seq_richcompare_ne.
  - apply seq_richcompare_ne.
Qed.

(** ** Pickling *)

(** C1.  A row rebuilt by [rowproxy_reconstructor] from what [__reduce__]
    returned has the class, the metadata and the values of the original:
    the two rows iterate and compare equal, their mappings have the same
    keys, and they hash alike. *)
Theorem reduce_reconstruct_roundtrip (hash : pyval -> exn + Z)
    (self : row_object) :
  exists obj,
    rowproxy_reconstructor (Row_.__reduce__ self).1 (Row_.__reduce__ self).2
      = inr obj
    /\ __class__ obj = __class__ self
    /\ _parent obj = _parent self
    /\ BaseRow.__iter__ obj = BaseRow.__iter__ self
    /\ Row_.__eq__ obj (OtherRow self) = inr true
    /\ _items (RowMapping.keys (Row_._mapping obj))
       = _items (RowMapping.keys (Row_._mapping self))
    /\ ROMappingView.__eq__ (RowMapping.keys (Row_._mapping obj))
         (IterView (RowMapping.keys (Row_._mapping self))) = inr true
    /\ Row_.__hash__ hash obj = Row_.__hash__ hash self.
Proof.
  eexists. split; [reflexivity|].
  repeat match goal with |- _ /\ _ => split end; try reflexivity.
  - unfold Row_.__eq__, Row_._op. rewrite py_richcompare_eq.
    f_equal. apply py_eq_refl.
  - unfold ROMappingView.__eq__, list_of. f_equal.
    apply list_eq_spec. reflexivity.
Qed.

(** ** Containment *)

(** C2.  On a [Row], [x in row] holds exactly when [x] is one of the
    stored values; on a [LegacyRow] the answer is the metadata's
    [_contains].  So for a key that is not a stored value and that the
    metadata's test accepts, the strict row answers [False] and the legacy
    row [True]. *)
Theorem contains_strict_vs_legacy (self : row_object) (x : pyval) :
  (Row_.__contains__ self x = true <-> In x (_data self))
  /\ LegacyRow.__contains__ self x
     = ResultMetaData._contains (_parent self) x (_data self)
  /\ (forall ws,
        ~ In x (_data self) ->
        ResultMetaData._contains (_parent self) x (_data self)
          = (ws, inr true) ->
        Row_.__contains__ self x = false
        /\ LegacyRow.__contains__ self x = (ws, inr true)).
Proof.
  assert (Hs : Row_.__contains__ self x = true <-> In x (_data self))
    by apply seq_contains_spec.
  split; [exact Hs|]. split; [reflexivity|].
  intros ws Hnot Hmd. split; [|exact Hmd].
  destruct (Row_.__contains__ self x) eqn:E; [|reflexivity].
  exfalso. apply Hnot, Hs. reflexivity.
Qed.

Lemma contains_strict_vs_legacy_witness :
  Row_.__contains__ (abc_row class_Row) (PyStr "a") = false
  /\ LegacyRow.__contains__ (abc_row class_LegacyRow) (PyStr "a")
     = ([], inr true).
Proof.
  apply (proj2 (proj2 (contains_strict_vs_legacy (abc_row class_LegacyRow)
                         (PyStr "a")))).
  - simpl. intros [H|[H|[H|[]]]]; discriminate H.
  - vm_compute. reflexivity.
Defined.

(** ** Keyed lookup *)

(** A key whose record holds [None] at [MD_INDEX]: the raiser's failure is
    the lookup's; should the raiser return, [self._data[None]] raises. *)
Lemma _subscript_impl_ambiguous self key ismapping ws rec :
  resolves_to self key ws rec ->
  tuple_getitem rec (PyInt MD_INDEX) = inr PyNone ->
  BaseRow._subscript_impl self key ismapping
  = (ws ++ warnings (ResultMetaData._raise_for_ambiguous_column_name
                       (_parent self) rec),
     match outcome (ResultMetaData._raise_for_ambiguous_column_name
                      (_parent self) rec) with
     | inl e => inl e
     | inr _ => inl TypeError
     end).
Proof.
  intros Hres Hidx. unfold BaseRow._subscript_impl.
  destruct Hres as [rec Hget | arg ws rec Hget Hfb]; rewrite Hget.
  - unfold mbind, M_bind, lift. rewrite Hidx. simpl.
    destruct (ResultMetaData._raise_for_ambiguous_column_name _ rec)
      as [wr [e|[]]]; simpl; rewrite ?app_nil_r; reflexivity.
  - unfold mbind, M_bind, lift. rewrite Hfb, Hidx. simpl.
    destruct (ResultMetaData._raise_for_ambiguous_column_name _ rec)
      as [wr [e|[]]]; simpl; rewrite ?app_nil_r; reflexivity.
Qed.

(** A key whose record holds a position. *)
Lemma _subscript_impl_position self key ismapping ws rec i :
  resolves_to self key ws rec ->
  tuple_getitem rec (PyInt MD_INDEX) = inr (PyInt i) ->
  BaseRow._subscript_impl self key ismapping
  = if negb ismapping && py_ne (PyInt i) key && negb (isinstance_int key)
    then
      (ws ++ warnings (ResultMetaData._warn_for_nonint (_parent self) key),
       match outcome (ResultMetaData._warn_for_nonint (_parent self) key) with
       | inl e => inl e
       | inr _ => tuple_getitem (_data self) (PyInt i)
       end)
    else (ws, tuple_getitem (_data self) (PyInt i)).
Proof.
  intros Hres Hidx. unfold BaseRow._subscript_impl.
  destruct Hres as [rec Hget | arg ws rec Hget Hfb]; rewrite Hget.
  - unfold mbind, M_bind, lift. rewrite Hidx.
    cbn [is_None].
    destruct (negb ismapping && py_ne (PyInt i) key && negb (isinstance_int key)).
    + destruct (ResultMetaData._warn_for_nonint _ key) as [wn [e|[]]];
        simpl; rewrite ?app_nil_r; reflexivity.
    + reflexivity.
  - unfold mbind, M_bind, lift. rewrite Hfb, Hidx.
    cbn [is_None].
    destruct (negb ismapping && py_ne (PyInt i) key && negb (isinstance_int key)).
    + destruct (ResultMetaData._warn_for_nonint _ key) as [wn [e|[]]];
        simpl; rewrite ?app_nil_r; reflexivity.
    + simpl. rewrite ?app_nil_r. reflexivity.
Qed.

(** C3.  A key whose resolution record carries [None] as its position
    never yields a value, whatever the metadata's raiser does; and the
    failure the raiser signals for that record, the ambiguous-column
    condition by its contract, is the failure of the lookup. *)
Theorem ambiguous_key_lookup_fails (self : row_object) (key : pyval)
    (ismapping : bool) (ws : list warning) (rec : list pyval) :
  resolves_to self key ws rec ->
  tuple_getitem rec (PyInt MD_INDEX) = inr PyNone ->
  (forall v, outcome (BaseRow._subscript_impl self key ismapping) <> inr v)
  /\ (forall wr e,
        ResultMetaData._raise_for_ambiguous_column_name (_parent self) rec
          = (wr, inl e) ->
        BaseRow._subscript_impl self key ismapping = (ws ++ wr, inl e)).
Proof.
  intros Hres Hidx.
  rewrite (_subscript_impl_ambiguous self key ismapping ws rec Hres Hidx).
  split.
  - intros v. unfold outcome at 1. simpl.
    destruct (outcome _) as [e|u]; discriminate.
  - intros wr e Hraise. rewrite Hraise. reflexivity.
Qed.

Lemma ambiguous_key_lookup_fails_witness :
  BaseRow._subscript_impl (dup_row class_LegacyRow) (PyStr "dup") false
  = ([], inl (AmbiguousColumnName (PyStr "dup"))).
Proof.
  refine (proj2 (ambiguous_key_lookup_fails (dup_row class_LegacyRow)
                   (PyStr "dup") false [] [PyNone; PyStr "dup"] _ _)
                [] (AmbiguousColumnName (PyStr "dup")) _).
  - apply resolves_keymap. vm_compute. reflexivity.
  - reflexivity.
  - reflexivity.
Defined.



(** ** Attribute access *)

Lemma tuple_getitem_int_error t i e :
  tuple_getitem t (PyInt i) = inl e -> e = IndexError.
Proof.
  unfold tuple_getitem.
  destruct (_ || _); [congruence|].
  destruct (t !! _); congruence.
Qed.

(** C10.  For a name that the classes of the row do not bind,
    [row.name] is [row._mapping[name]] with [KeyError] turned into
    [AttributeError]; when the name is in the key map with a position
    [i], both are [self._data[i]] and neither warns. *)
Theorem getattr_is_mapping_lookup (inherited : string -> bool)
    (self : row_object) (name : string) :
  class_binds (__class__ self) name = false ->
  inherited name = false ->
  getattr inherited self name
  = as_attribute (RowMapping.__getitem__ (Row_._mapping self) (PyStr name))
  /\ (forall rec i,
        dict_getitem (_keymap self) (PyStr name) = inr rec ->
        tuple_getitem rec (PyInt MD_INDEX) = inr (PyInt i) ->
        RowMapping.__getitem__ (Row_._mapping self) (PyStr name)
        = ([], tuple_getitem (_data self) (PyInt i))
        /\ getattr inherited self name
           = ([], match tuple_getitem (_data self) (PyInt i) with
                  | inr v => inr (ColumnValue v)
                  | inl e => inl e
                  end)).
Proof.
  intros Hcls Hinh.
  assert (Hget : getattr inherited self name
                 = as_attribute (RowMapping.__getitem__ (Row_._mapping self)
                                   (PyStr name))).
  { unfold getattr. rewrite Hcls, Hinh. simpl.
    unfold BaseRow.__getattr__, RowMapping.__getitem__. simpl.
    destruct (BaseRow._get_by_key_impl_mapping self (PyStr name))
      as [ws [e|v]]; [destruct e|]; simpl; rewrite ?app_nil_r; reflexivity. }
  split; [exact Hget|].
  intros rec i Hrec Hidx.
  assert (Hmap : RowMapping.__getitem__ (Row_._mapping self) (PyStr name)
                 = ([], tuple_getitem (_data self) (PyInt i))).
  { unfold RowMapping.__getitem__, BaseRow._get_by_key_impl_mapping. simpl.
    rewrite (_subscript_impl_position self (PyStr name) true [] rec i
               (resolves_keymap _ _ _ Hrec) Hidx).
    reflexivity. }
  split; [exact Hmap|].
  rewrite Hget, Hmap.
  destruct (tuple_getitem (_data self) (PyInt i)) as [e|v] eqn:E;
    [|reflexivity].
  apply tuple_getitem_int_error in E. subst e. reflexivity.
Qed.

Lemma getattr_is_mapping_lookup_witness :
  getattr (fun _ => false) (abc_row class_Row) "a"
  = as_attribute (RowMapping.__getitem__ (Row_._mapping (abc_row class_Row))
                    (PyStr "a"))
  /\ (forall rec i,
        dict_getitem (_keymap (abc_row class_Row)) (PyStr "a") = inr rec ->
        tuple_getitem rec (PyInt MD_INDEX) = inr (PyInt i) ->
        RowMapping.__getitem__ (Row_._mapping (abc_row class_Row)) (PyStr "a")
        = ([], tuple_getitem (_data (abc_row class_Row)) (PyInt i))
        /\ getattr (fun _ => false) (abc_row class_Row) "a"
           = ([], match tuple_getitem (_data (abc_row class_Row)) (PyInt i)
                  with
                  | inr v => inr (ColumnValue v)
                  | inl e => inl e
                  end)).
Proof.
  apply (getattr_is_mapping_lookup (fun _ => false) (abc_row class_Row) "a").
  - vm_compute. reflexivity.
  - reflexivity.
Defined.

(** A column named like a method of the row: [row.keys] is the method,
    [row._mapping["keys"]] is the value of the column. *)
Lemma getattr_column_named_keys :
  dict_getitem (_keymap keys_row) (PyStr "keys")
    = inr [PyInt 0; PyStr "keys"]
  /\ RowMapping.__getitem__ (Row_._mapping keys_row) (PyStr "keys")
     = ([], inr (PyInt 7))
  /\ getattr (fun _ => false) keys_row "keys"
     = ([], inr (ClassMember "keys"))
  /\ getattr (fun _ => false) keys_row "keys"
     <> as_attribute (RowMapping.__getitem__ (Row_._mapping keys_row)
                        (PyStr "keys")).
Proof.
  repeat split; try (vm_compute; reflexivity).
  vm_compute. discriminate.
Qed.

(** ** The mapping and its views *)

(** C4.  The length of a row's mapping is the length of the row's
    storage.  Iterating it, like [keys()], gives the entries of the
    metadata's [keys] that are not [None], in their order there.  With one
    entry per stored value the names are at most as many as the length,
    and there are rows with fewer names than the length. *)
Theorem mapping_len_counts_every_slot :
  (forall m : mapping_object,
     RowMapping.__len__ m = length (_data (row m)))
  /\ (forall m : mapping_object,
        RowMapping.__iter__ m
        = filter (fun k => k <> PyNone)
                 (ResultMetaData.keys (_parent (row m)))
        /\ ROMappingView.__iter__ (RowMapping.keys m) = RowMapping.__iter__ m)
  /\ (forall m : mapping_object,
        sublist (RowMapping.__iter__ m)
                (ResultMetaData.keys (_parent (row m)))
        /\ forall k, k ∈ RowMapping.__iter__ m
                     <-> k ∈ ResultMetaData.keys (_parent (row m))
                         /\ k <> PyNone)
  /\ (forall m : mapping_object,
        length (ResultMetaData.keys (_parent (row m)))
          = length (_data (row m)) ->
        (length (RowMapping.__iter__ m) <= RowMapping.__len__ m)%nat)
  /\ (exists m : mapping_object,
        (length (RowMapping.__iter__ m) < RowMapping.__len__ m)%nat).
Proof.
  split; [reflexivity|]. split; [intros m; split; reflexivity|].
  split; [|split].
  - intros m. split.
    + apply sublist_filter.
    + intros k. unfold RowMapping.__iter__.
      rewrite list_elem_of_filter. tauto.
  - intros m Hlen. unfold RowMapping.__len__, BaseRow.__len__.
    rewrite <- Hlen. apply length_filter.
  - exists (Row_._mapping (dup_row class_Row)). vm_compute. lia.
Qed.

Lemma mapping_len_counts_every_slot_witness :
  (length (RowMapping.__iter__ (Row_._mapping (dup_row class_Row)))
   <= RowMapping.__len__ (Row_._mapping (dup_row class_Row)))%nat.
Proof.
  apply (proj1 (proj2 (proj2 (proj2 mapping_len_counts_every_slot)))
           (Row_._mapping (dup_row class_Row))).
  reflexivity.
Defined.

(** C6.  A view equals an iterable exactly when the list of the
    iterable is the list of the view, item by item in the same order; a
    rearrangement of the view's items that is not the same list is
    unequal to it. *)
Theorem view_eq_is_ordered (self : view_object) (other : iterable)
    (l : list pyval) :
  list_of other = inr l ->
  ROMappingView.__eq__ self other = inr (bool_decide (l = _items self))
  /\ ROMappingView.__ne__ self other = inr (bool_decide (l <> _items self))
  /\ (Permutation l (_items self) -> l <> _items self ->
      ROMappingView.__eq__ self other = inr false
      /\ ROMappingView.__ne__ self other = inr true).
Proof.
  intros Hl.
  assert (Heq : list_eq l (_items self) = bool_decide (l = _items self)).
  { destruct (list_eq l (_items self)) eqn:E.
    - apply list_eq_spec in E. rewrite bool_decide_eq_true_2; auto.
    - rewrite bool_decide_eq_false_2; auto.
      intros H. apply list_eq_spec in H. congruence. }
  unfold ROMappingView.__eq__, ROMappingView.__ne__, ROMappingView.__iter__.
  rewrite Hl, Heq. split; [reflexivity|]. split.
  - f_equal. destruct (decide (l = _items self)) as [H|H].
    + rewrite bool_decide_eq_true_2, bool_decide_eq_false_2; auto.
    + rewrite bool_decide_eq_false_2, bool_decide_eq_true_2; auto.
  - intros _ Hne. rewrite bool_decide_eq_false_2; auto.
Qed.

Lemma view_eq_is_ordered_witness :
  ROMappingView.__eq__ (RowMapping.keys (Row_._mapping (abc_row class_Row)))
    (IterValue (PyList [PyStr "c"; PyStr "b"; PyStr "a"])) = inr false
  /\ ROMappingView.__ne__ (RowMapping.keys (Row_._mapping (abc_row class_Row)))
       (IterValue (PyList [PyStr "c"; PyStr "b"; PyStr "a"])) = inr true.
Proof.
  apply (proj2 (proj2 (view_eq_is_ordered
                         (RowMapping.keys (Row_._mapping (abc_row class_Row)))
                         (IterValue (PyList [PyStr "c"; PyStr "b"; PyStr "a"]))
                         [PyStr "c"; PyStr "b"; PyStr "a"] eq_refl))).
  - change (Permutation [PyStr "c"; PyStr "b"; PyStr "a"]
                        [PyStr "a"; PyStr "b"; PyStr "c"]).
    symmetry. apply (Permutation_rev [PyStr "a"; PyStr "b"; PyStr "c"]).
  - vm_compute. discriminate.
Defined.

(** ** Construction *)

Lemma zip_take_min {A B} (l : list A) (k : list B) :
  zip (take (Nat.min (length l) (length k)) l)
      (take (Nat.min (length l) (length k)) k)
  = zip l k.
Proof.
  revert k. induction l as [|x l IH]; intros [|y k]; simpl; try reflexivity.
  f_equal. apply IH.
Qed.

Lemma mapM_inr {A B} (f : A -> M B) (l : list A) ws ys :
  mapM f l = (ws, inr ys) ->
  Forall2 (fun x y => outcome (f x) = inr y) l ys.
Proof.
  revert ws ys. induction l as [|x l IH]; simpl; intros ws ys H.
  - injection H as _ <-. constructor.
  - unfold mbind, M_bind in H.
    destruct (f x) as [w1 [e|y]] eqn:Hx; [discriminate H|].
    destruct (mapM f l) as [w2 [e|ys']] eqn:Hl; [discriminate H|].
    simpl in H. injection H as _ <-.
    constructor; [rewrite Hx; reflexivity | eapply IH; reflexivity].
Qed.

Lemma mapM_total {A B} (f : A -> M B) (l : list A) :
  Forall (fun x => exists y, outcome (f x) = inr y) l ->
  exists ws ys, mapM f l = (ws, inr ys).
Proof.
  induction 1 as [|x l [y Hy] _ (ws & ys & IH)]; simpl.
  - exists [], []. reflexivity.
  - unfold mbind, M_bind. rewrite IH.
    destruct (f x) as [w1 r]. simpl in Hy. subst r. simpl.
    eauto.
Qed.

Lemma mapM_no_processor (ps : list processor) (ds : list pyval) :
  Forall (fun p => p = None) ps ->
  mapM (fun '(proc, value) => convert proc value) (zip ps ds)
  = ([], inr (take (length ps) ds)).
Proof.
  intros H. revert ds. induction H as [|p ps -> _ IH]; intros [|d ds];
    try reflexivity.
  simpl. unfold mbind, M_bind. simpl. rewrite IH. reflexivity.
Qed.

(** C8.  [BaseRow.__init__] checks no length: it builds the row from the
    pairs [zip] makes, so it does on any input what it does on the two
    sequences cut to the shorter length.  The row it returns stores one
    value per pair, each the conversion of the raw value at its position,
    and it does return a row when every conversion succeeds; with no
    processor at all the values are the first raw ones, as many as there
    are entries in [processors]. *)
Theorem init_stops_at_shorter (cls : row_class) (parent : ResultMetaData.t)
    (processors : list processor) (keymap : gmap pyval (list pyval))
    (data : list pyval) :
  let n := Nat.min (length processors) (length data) in
  BaseRow.__init__ cls parent processors keymap data
  = BaseRow.__init__ cls parent (take n processors) keymap (take n data)
  /\ (forall ws self,
        BaseRow.__init__ cls parent processors keymap data = (ws, inr self) ->
        length (_data self) = n
        /\ Forall2 (fun pv v => outcome (convert pv.1 pv.2) = inr v)
                   (zip processors data) (_data self)
        /\ __class__ self = cls /\ _parent self = parent
        /\ _keymap self = keymap)
  /\ (Forall (fun pv => exists v, outcome (convert pv.1 pv.2) = inr v)
             (zip processors data) ->
      exists ws self,
        BaseRow.__init__ cls parent processors keymap data = (ws, inr self))
  /\ (Forall (fun p => p = None) processors ->
      BaseRow.__init__ cls parent processors keymap data
      = ([], inr {| __class__ := cls; _parent := parent;
                    _data := take n data; _keymap := keymap |})).
Proof.
  intros n. split; [|split; [|split]].
  - unfold BaseRow.__init__, n. rewrite zip_take_min. reflexivity.
  - intros ws self. unfold BaseRow.__init__, mbind, M_bind.
    destruct (mapM _ (zip processors data)) as [w [e|values]] eqn:Hm;
      [discriminate|].
    simpl. intros [= _ <-]. simpl.
    apply mapM_inr in Hm.
    split; [|split; [|auto]].
    + apply Forall2_length in Hm. rewrite <- Hm.
      unfold n. apply length_zip_with.
    + eapply Forall2_impl; [exact Hm|]. intros [p d] v Hv. exact Hv.
  - intros Hall. unfold BaseRow.__init__, mbind, M_bind.
    destruct (mapM_total (fun '(proc, value) => convert proc value)
                (zip processors data)) as (ws & values & Hm).
    { eapply Forall_impl; [exact Hall|]. intros [p d] Hpd. exact Hpd. }
    rewrite Hm. simpl. eauto.
  - intros Hnone. unfold BaseRow.__init__, mbind, M_bind.
    rewrite (mapM_no_processor processors data Hnone). simpl.
    do 3 f_equal. unfold n.
    destruct (Nat.le_ge_cases (length processors) (length data)) as [Hle|Hge].
    + rewrite Nat.min_l by exact Hle. reflexivity.
    + rewrite Nat.min_r by exact Hge.
      rewrite !take_ge; auto.
Qed.

Lemma init_stops_at_shorter_witness :
  BaseRow.__init__ class_Row abc_metadata [None; None] abc_keymap
    [PyInt 1; PyInt 2; PyInt 3]
  = ([], inr {| __class__ := class_Row; _parent := abc_metadata;
                _data := [PyInt 1; PyInt 2]; _keymap := abc_keymap |}).
Proof.
  apply (proj2 (proj2 (proj2 (init_stops_at_shorter class_Row abc_metadata
                                [None; None] abc_keymap
                                [PyInt 1; PyInt 2; PyInt 3])))).
  repeat constructor.
Defined.

(** Two processors and three raw values: a row of length two. *)
Lemma init_mismatch_builds_row :
  length [None; None : processor] <> length [PyInt 1; PyInt 2; PyInt 3]
  /\ exists self,
       BaseRow.__init__ class_Row abc_metadata [None; None] abc_keymap
         [PyInt 1; PyInt 2; PyInt 3] = ([], inr self)
       /\ BaseRow.__len__ self = 2%nat.
Proof.
  split; [discriminate|].
  eexists. split; reflexivity.
Qed.

(** ** Tuple subscription *)

Lemma tuple_getitem_index (t : list pyval) (i : Z) :
  0 <= i < Z.of_nat (length t) ->
  exists v, t !! Z.to_nat i = Some v /\ tuple_getitem t (PyInt i) = inr v.
Proof.
  intros Hi. unfold tuple_getitem. cbv zeta.
  assert (H0 : (i <? 0) = false) by (apply Z.ltb_ge; lia).
  assert (H1 : (Z.of_nat (length t) <=? i) = false) by (apply Z.leb_gt; lia).
  rewrite H0. cbv iota. rewrite H0, H1. simpl.
  destruct (t !! Z.to_nat i) as [v|] eqn:E.
  - exists v. auto.
  - apply lookup_ge_None in E. lia.
Qed.

Lemma tuple_getitem_from_end (t : list pyval) (i : Z) :
  - Z.of_nat (length t) <= i < 0 ->
  exists v, t !! Z.to_nat (Z.of_nat (length t) + i) = Some v
            /\ tuple_getitem t (PyInt i) = inr v.
Proof.
  intros Hi. unfold tuple_getitem. cbv zeta.
  assert (H0 : (i <? 0) = true) by (apply Z.ltb_lt; lia).
  assert (H1 : (i + Z.of_nat (length t) <? 0) = false)
    by (apply Z.ltb_ge; lia).
  assert (H2 : (Z.of_nat (length t) <=? i + Z.of_nat (length t)) = false)
    by (apply Z.leb_gt; lia).
  rewrite H0. cbv iota. rewrite H1, H2. simpl.
  replace (i + Z.of_nat (length t)) with (Z.of_nat (length t) + i) by lia.
  destruct (t !! Z.to_nat (Z.of_nat (length t) + i)) as [v|] eqn:E.
  - exists v. auto.
  - apply lookup_ge_None in E. lia.
Qed.

Lemma tuple_getitem_out_of_range (t : list pyval) (i : Z) :
  i < - Z.of_nat (length t) \/ Z.of_nat (length t) <= i ->
  tuple_getitem t (PyInt i) = inl IndexError.
Proof.
  intros Hi. unfold tuple_getitem. cbv zeta.
  destruct (Z.ltb_spec i 0) as [Hneg|Hpos]; cbv iota.
  - assert (H1 : (i + Z.of_nat (length t) <? 0) = true)
      by (apply Z.ltb_lt; lia).
    rewrite H1. reflexivity.
  - assert (H0 : (i <? 0) = false) by (apply Z.ltb_ge; lia).
    assert (H1 : (Z.of_nat (length t) <=? i) = true) by (apply Z.leb_le; lia).
    rewrite H0, H1. reflexivity.
Qed.

Lemma steps_bound (a b j : Z) :
  0 < b -> 0 <= a -> 0 <= j < a / b + 1 -> j * b <= a.
Proof.
  intros Hb Ha Hj. pose proof (Z.mul_div_le a b Hb). nia.
Qed.

(** The indices a slice selects are positions of the tuple. *)
Lemma slice_indices_in_range start stop step len first stride count :
  0 <= len ->
  slice_indices start stop step len = inr (first, stride, count) ->
  0 <= count
  /\ forall j, 0 <= j < count -> 0 <= first + j * stride < len.
Proof.
  intros Hlen. unfold slice_indices.
  destruct (Z.eqb_spec (default 1 step) 0) as [|Hstep]; [discriminate|].
  set (st := default 1 step) in *.
  destruct (Z.ltb_spec st 0) as [Hneg|Hpos].
  - set (s := match start with
              | Some i => if i <? 0 then Z.max (i + len) (-1)
                          else Z.min i (len - 1)
              | None => len - 1 end).
    set (e := match stop with
              | Some i => if i <? 0 then Z.max (i + len) (-1)
                          else Z.min i (len - 1)
              | None => -1 end).
    assert (Hs : -1 <= s <= len - 1).
    { unfold s. destruct start as [i|]; [|lia].
      destruct (Z.ltb_spec i 0); lia. }
    assert (He : -1 <= e <= len - 1).
    { unfold e. destruct stop as [i|]; [|lia].
      destruct (Z.ltb_spec i 0); lia. }
    destruct (Z.ltb_spec e s) as [Hlt|Hge]; intros [= <- <- <-].
    + assert (0 <= (s - e - 1) / - st) by (apply Z.div_pos; lia).
      split; [lia|]. intros j Hj.
      pose proof (steps_bound (s - e - 1) (- st) j ltac:(lia) ltac:(lia) Hj).
      nia.
    + split; [lia|]. intros j Hj. lia.
  - set (s := match start with
              | Some i => if i <? 0 then Z.max (i + len) 0 else Z.min i len
              | None => 0 end).
    set (e := match stop with
              | Some i => if i <? 0 then Z.max (i + len) 0 else Z.min i len
              | None => len end).
    assert (Hs : 0 <= s <= len).
    { unfold s. destruct start as [i|]; [|lia].
      destruct (Z.ltb_spec i 0); lia. }
    assert (He : 0 <= e <= len).
    { unfold e. destruct stop as [i|]; [|lia].
      destruct (Z.ltb_spec i 0); lia. }
    destruct (Z.ltb_spec s e) as [Hlt|Hge]; intros [= <- <- <-].
    + assert (0 <= (e - s - 1) / st) by (apply Z.div_pos; lia).
      split; [lia|]. intros j Hj.
      pose proof (steps_bound (e - s - 1) st j ltac:(lia) ltac:(lia) Hj).
      nia.
    + split; [lia|]. intros j Hj. lia.
Qed.

Lemma slice_indices_step start stop step len :
  step <> Some 0 ->
  exists first stride count,
    slice_indices start stop step len = inr (first, stride, count).
Proof.
  intros Hstep. unfold slice_indices.
  destruct (Z.eqb_spec (default 1 step) 0) as [Hz|_].
  - destruct step as [z|]; simpl in Hz; [subst; contradiction|discriminate].
  - eauto.
Qed.

Lemma omap_lookup_total {A B} (f : A -> option B) (l : list A) :
  Forall (fun x => is_Some (f x)) l ->
  length (omap f l) = length l
  /\ forall (j : nat) x, l !! j = Some x -> omap f l !! j = f x.
Proof.
  induction 1 as [|x l [y Hy] _ [IHlen IH]]; simpl.
  - split; [reflexivity|]. intros j x H. discriminate.
  - rewrite Hy. simpl. split; [f_equal; exact IHlen|].
    intros [|j] x' H; simpl in *.
    + injection H as <-. auto.
    + apply IH, H.
Qed.

Lemma slice_items_lookup (t : list pyval) (first stride count : Z) :
  0 <= count ->
  (forall j, 0 <= j < count ->
             0 <= first + j * stride < Z.of_nat (length t)) ->
  length (slice_items t first stride count) = Z.to_nat count
  /\ forall j : nat, (j < Z.to_nat count)%nat ->
       exists v, slice_items t first stride count !! j = Some v
                 /\ t !! Z.to_nat (first + Z.of_nat j * stride) = Some v.
Proof.
  intros Hcount Hrange. unfold slice_items.
  assert (Hall : Forall (fun i : nat =>
                   is_Some (t !! Z.to_nat (first + Z.of_nat i * stride)))
                 (seq 0 (Z.to_nat count))).
  { apply Forall_forall. intros i Hi. apply elem_of_seq in Hi.
    apply lookup_lt_is_Some. specialize (Hrange (Z.of_nat i)). lia. }
  destruct (omap_lookup_total _ _ Hall) as [Hlen Hlook].
  split; [rewrite Hlen; apply length_seq|].
  intros j Hj.
  rewrite (Hlook j j) by (apply lookup_seq; lia).
  rewrite Forall_forall in Hall.
  destruct (Hall j) as [v Hv]; [apply elem_of_seq; lia|].
  exists v. auto.
Qed.

Lemma slice_items_contiguous (t : list pyval) (a b : Z) :
  0 <= a <= b -> b <= Z.of_nat (length t) ->
  slice_items t a 1 (b - a)
  = take (Z.to_nat (b - a)) (drop (Z.to_nat a) t).
Proof.
  intros Hab Hb.
  destruct (slice_items_lookup t a 1 (b - a)) as [Hlen Hlook]; [lia|lia|].
  apply list_eq_same_length with (Z.to_nat (b - a)).
  - rewrite length_take, length_drop. lia.
  - exact Hlen.
  - intros j x y Hj Hx Hy.
    destruct (Hlook j Hj) as (v & Hv1 & Hv2).
    rewrite lookup_take_lt, lookup_drop in Hy by exact Hj.
    replace (Z.to_nat (a + Z.of_nat j * 1)) with (Z.to_nat a + j)%nat
      in Hv2 by lia.
    congruence.
Qed.

Lemma slice_indices_contiguous (a b len : Z) :
  0 <= a <= b -> b <= len ->
  slice_indices (Some a) (Some b) None len = inr (a, 1, b - a).
Proof.
  intros Hab Hb. unfold slice_indices. simpl.
  assert (Ha0 : (a <? 0) = false) by (apply Z.ltb_ge; lia).
  assert (Hb0 : (b <? 0) = false) by (apply Z.ltb_ge; lia).
  rewrite Ha0, Hb0.
  rewrite (Z.min_l a len), (Z.min_l b len) by lia.
  destruct (Z.ltb_spec a b) as [Hlt|Hge].
  - rewrite Z.div_1_r. do 2 f_equal. lia.
  - do 2 f_equal. lia.
Qed.

(** C9.  Subscripting a [Row] is subscripting the tuple of its values.
    An integer in [[0, n)] gives the value at that position, one in
    [[-n, 0)] the value at that distance from the end, any other integer
    raises [IndexError].  A slice with a step other than zero gives the
    tuple of the values at the positions [slice.indices] selects, in the
    order of selection -- for [a:b] within bounds the values from [a] up
    to [b] -- and a zero step raises [ValueError].  A string or a column
    is no index: [TypeError], with no look at the key map. *)
Theorem row_getitem_is_tuple_subscription (self : row_object) :
  let n := Z.of_nat (length (_data self)) in
  (forall i, 0 <= i < n ->
     exists v, _data self !! Z.to_nat i = Some v
               /\ Row_.__getitem__ self (PyInt i) = inr v)
  /\ (forall i, - n <= i < 0 ->
        exists v, _data self !! Z.to_nat (n + i) = Some v
                  /\ Row_.__getitem__ self (PyInt i) = inr v)
  /\ (forall i, i < - n \/ n <= i ->
        Row_.__getitem__ self (PyInt i) = inl IndexError)
  /\ (forall start stop step, step <> Some 0 ->
        exists first stride count l,
          slice_indices start stop step n = inr (first, stride, count)
          /\ Row_.__getitem__ self (PySlice start stop step) = inr (PyTuple l)
          /\ length l = Z.to_nat count
          /\ forall j : nat, (j < Z.to_nat count)%nat ->
               exists v, l !! j = Some v
                         /\ _data self
                              !! Z.to_nat (first + Z.of_nat j * stride)
                            = Some v)
  /\ (forall a b, 0 <= a <= b -> b <= n ->
        Row_.__getitem__ self (PySlice (Some a) (Some b) None)
        = inr (PyTuple (take (Z.to_nat (b - a))
                             (drop (Z.to_nat a) (_data self)))))
  /\ (forall start stop,
        Row_.__getitem__ self (PySlice start stop (Some 0)) = inl ValueError)
  /\ (forall s, Row_.__getitem__ self (PyStr s) = inl TypeError)
  /\ (forall c, Row_.__getitem__ self (PyColumn c) = inl TypeError).
Proof.
  intros n. unfold Row_.__getitem__.
  split; [intros i; apply tuple_getitem_index|].
  split; [intros i; apply tuple_getitem_from_end|].
  split; [intros i; apply tuple_getitem_out_of_range|].
  split; [|split; [|repeat split]].
  - intros start stop step Hstep.
    destruct (slice_indices_step start stop step n Hstep)
      as (first & stride & count & Hidx).
    destruct (slice_indices_in_range _ _ _ _ _ _ _ (Nat2Z.is_nonneg _) Hidx)
      as [Hcount Hrange].
    destruct (slice_items_lookup (_data self) first stride count
                Hcount Hrange) as [Hlen Hlook].
    exists first, stride, count, (slice_items (_data self) first stride count).
    split; [exact Hidx|]. split; [|split; [exact Hlen | exact Hlook]].
    unfold tuple_getitem. fold n. rewrite Hidx. reflexivity.
  - intros a b Hab Hb. unfold tuple_getitem. fold n.
    rewrite (slice_indices_contiguous a b n Hab Hb).
    rewrite (slice_items_contiguous (_data self) a b Hab Hb). reflexivity.
Qed.

Lemma row_getitem_is_tuple_subscription_witness :
  exists v, _data (abc_row class_Row) !! Z.to_nat (3 + -1) = Some v
            /\ Row_.__getitem__ (abc_row class_Row) (PyInt (-1)) = inr v.
Proof.
  apply (proj1 (proj2 (row_getitem_is_tuple_subscription (abc_row class_Row)))
           (-1)).
  simpl. lia.
Defined.

(** [row[-1]] is the last value; [-1] is not in [[0, 3)]. *)
Lemma row_getitem_negative_index :
  ~ (0 <= -1 < Z.of_nat (length (_data (abc_row class_Row))))
  /\ Row_.__getitem__ (abc_row class_Row) (PyInt (-1)) = inr (PyInt 3).
Proof.
  split; [lia | reflexivity].
Qed.

(** ** Comparison and hashing *)



Lemma seq_richcompare_common_prefix op p v w :
  seq_richcompare py_richcompare op (p ++ v) (p ++ w)
  = seq_richcompare py_richcompare op v w.
Proof.
  induction p as [|z p IH]; simpl; [reflexivity|].
  rewrite py_eq_refl. exact IH.
Qed.

Lemma lexicographic_seq_richcompare op v w r :
  lexicographic op v w r -> seq_richcompare py_richcompare op v w = r.
Proof.
  intros H. destruct H as [p x y v w Hne | v | v y w | v x w].
  - rewrite seq_richcompare_common_prefix. simpl.
    apply py_eq_false in Hne. rewrite Hne. reflexivity.
  - rewrite <- (app_nil_r v) at 1 2.
    rewrite seq_richcompare_common_prefix. reflexivity.
  - rewrite <- (app_nil_r v) at 1.
    rewrite seq_richcompare_common_prefix. reflexivity.
  - rewrite <- (app_nil_r v) at 2.
    rewrite seq_richcompare_common_prefix. reflexivity.
Qed.





(** * Further properties *)

(** ** Pickling, continued *)

(** X1.  Rebuilding a row from its own class and state gives the row
    itself exactly when the row's key map is its metadata's: the state
    does not carry the key map, the rebuilt row takes the metadata's. *)
Theorem reconstruct_getstate_identity (self : row_object) :
  rowproxy_reconstructor (__class__ self) (Row_.__getstate__ self) = inr self
  <-> _keymap self = ResultMetaData._keymap (_parent self).
Proof.
  destruct self as [cls parent data keymap].
  unfold rowproxy_reconstructor, Row_.__setstate__, Row_.__getstate__. simpl.
  split.
  - intros [= H]. symmetry. exact H.
  - intros ->. reflexivity.
Qed.

(** X2.  [__setstate__] returns a row exactly for a state with both
    entries, and the state of that row is the state it was built from; a
    state without ["_parent"] raises [KeyError] for that entry, whether or
    not ["_data"] is there, and one with ["_parent"] only raises it for
    ["_data"]. *)
Theorem setstate_getstate (cls : row_class) (st : state) :
  (forall obj, Row_.__setstate__ cls st = inr obj ->
     Row_.__getstate__ obj = st /\ __class__ obj = cls
     /\ exists parent, _parent obj = parent
                       /\ _keymap obj = ResultMetaData._keymap parent)
  /\ ((exists obj, Row_.__setstate__ cls st = inr obj)
      <-> is_Some (state__parent st) /\ is_Some (state__data st))
  /\ (state__parent st = None ->
      Row_.__setstate__ cls st = inl (KeyError (PyStr "_parent")))
  /\ (is_Some (state__parent st) -> state__data st = None ->
      Row_.__setstate__ cls st = inl (KeyError (PyStr "_data"))).
Proof.
  unfold Row_.__setstate__.
  destruct st as [[parent|] [data|]]; simpl.
  - split; [|split; [|split]].
    + intros obj [= <-]. simpl. eauto.
    + split; [intros _; split; eauto | intros _; eauto].
    + intros H. discriminate H.
    + intros _ H. discriminate H.
  - split; [|split; [|split]].
    + intros obj H. discriminate H.
    + split; [intros [obj H]; discriminate H|].
      intros [_ [x H]]. discriminate H.
    + intros H. discriminate H.
    + reflexivity.
  - split; [|split; [|split]].
    + intros obj H. discriminate H.
    + split; [intros [obj H]; discriminate H|].
      intros [[x H] _]. discriminate H.
    + reflexivity.
    + intros [x H]. discriminate H.
  - split; [|split; [|split]].
    + intros obj H. discriminate H.
    + split; [intros [obj H]; discriminate H|].
      intros [[x H] _]. discriminate H.
    + reflexivity.
    + intros [x H]. discriminate H.
Qed.

(** ** Keyed lookup, continued *)

Lemma dict_getitem_unhashable {V} (d : gmap pyval V) key :
  hashable key = false -> dict_getitem d key = inl TypeError.
Proof. intros H. unfold dict_getitem. rewrite H. reflexivity. Qed.

Lemma dict_getitem_missing {V} (d : gmap pyval V) key :
  hashable key = true -> d !! key = None ->
  dict_getitem d key = inl (KeyError key).
Proof. intros H1 H2. unfold dict_getitem. rewrite H1, H2. reflexivity. Qed.

(** X3.  An unhashable key never reaches the metadata and never warns.
    A slice gives, in mapping context or not, what subscripting the
    strict row with it gives, so a [LegacyRow] and a [RowMapping] slice
    like a [Row]; any other unhashable key, a list for one, raises
    [TypeError]. *)
Theorem subscript_unhashable_key (self : row_object) (ismapping : bool) :
  (forall start stop step,
     BaseRow._subscript_impl self (PySlice start stop step) ismapping
     = ([], Row_.__getitem__ self (PySlice start stop step))
     /\ LegacyRow.__getitem__ self (PySlice start stop step)
        = RowMapping.__getitem__ (Row_._mapping self)
            (PySlice start stop step))
  /\ (forall key,
        hashable key = false -> isinstance_slice key = false ->
        BaseRow._subscript_impl self key ismapping = ([], inl TypeError)).
Proof.
  split.
  - intros start stop step. split; reflexivity.
  - intros key Hhash Hslice. unfold BaseRow._subscript_impl.
    rewrite (dict_getitem_unhashable _ key Hhash), Hslice. reflexivity.
Qed.

Lemma subscript_unhashable_key_witness :
  BaseRow._subscript_impl (abc_row class_LegacyRow) (PyList [PyStr "a"]) false
  = ([], inl TypeError).
Proof.
  apply (proj2 (subscript_unhashable_key (abc_row class_LegacyRow) false)
           (PyList [PyStr "a"])); reflexivity.
Defined.

(** X4.  A hashable key that the row's key map does not hold is the
    fallback's to settle: when the fallback raises, the lookup raises the
    same exception after the same warnings, in either context, and
    attribute access raises [AttributeError] where the fallback raised
    [KeyError]. *)
Theorem subscript_missing_key (self : row_object) (key : pyval)
    (ismapping : bool) (ws : list warning) (e : exn) :
  hashable key = true ->
  _keymap self !! key = None ->
  ResultMetaData._key_fallback (_parent self) key = (ws, inl e) ->
  BaseRow._subscript_impl self key ismapping = (ws, inl e)
  /\ (forall name arg,
        key = PyStr name -> e = KeyError arg ->
        BaseRow.__getattr__ self name = (ws, inl (AttributeError arg))).
Proof.
  intros Hhash Hnone Hfb.
  assert (H : forall b, BaseRow._subscript_impl self key b = (ws, inl e)).
  { intros b. unfold BaseRow._subscript_impl.
    rewrite (dict_getitem_missing _ key Hhash Hnone).
    unfold mbind, M_bind. rewrite Hfb. reflexivity. }
  split; [apply H|].
  intros name arg -> ->.
  unfold BaseRow.__getattr__, BaseRow._get_by_key_impl_mapping.
  rewrite H. simpl. rewrite app_nil_r. reflexivity.
Qed.

Lemma subscript_missing_key_witness :
  BaseRow._subscript_impl (abc_row class_Row) (PyStr "z") true
  = ([], inl (KeyError (PyStr "z")))
  /\ (forall name arg,
        PyStr "z" = PyStr name -> KeyError (PyStr "z") = KeyError arg ->
        BaseRow.__getattr__ (abc_row class_Row) name
        = ([], inl (AttributeError arg))).
Proof.
  apply (subscript_missing_key (abc_row class_Row) (PyStr "z") true []
           (KeyError (PyStr "z"))).
  - reflexivity.
  - vm_compute. reflexivity.
  - reflexivity.
Defined.

(** X5.  [__getattr__] never raises [KeyError]: it raises
    [AttributeError] exactly when the mapping lookup of the name raised
    [KeyError] or [AttributeError], with the same argument, and any other
    outcome of the lookup, and its warnings, are passed on. *)
Theorem getattr_never_raises_KeyError (self : row_object) (name : string) :
  let lookup := RowMapping.__getitem__ (Row_._mapping self) (PyStr name) in
  (forall arg, outcome (BaseRow.__getattr__ self name) <> inl (KeyError arg))
  /\ (forall arg,
        outcome (BaseRow.__getattr__ self name) = inl (AttributeError arg)
        <-> outcome lookup = inl (KeyError arg)
            \/ outcome lookup = inl (AttributeError arg))
  /\ (forall r,
        outcome lookup = r -> (forall arg, r <> inl (KeyError arg)) ->
        outcome (BaseRow.__getattr__ self name) = r)
  /\ warnings (BaseRow.__getattr__ self name) = warnings lookup.
Proof.
  intros lookup. unfold BaseRow.__getattr__.
  change (BaseRow._get_by_key_impl_mapping self (PyStr name)) with lookup.
  clearbody lookup. destruct lookup as [ws r].
  unfold except_KeyError, outcome, warnings.
  destruct r as [e|v]; [destruct e|]; simpl; rewrite ?app_nil_r; simpl;
    (split; [|split; [|split]]); try reflexivity;
    try (intros arg0 H; discriminate H);
    try (intros r <- H; first [reflexivity | exfalso; eapply H; reflexivity]);
    try (intros arg0; split;
         [intros H; first [discriminate H | injection H as <-; auto]
         | intros [H|H]; first [discriminate H
                               | injection H as <-; reflexivity]]).
Qed.

Lemma _subscript_impl_unfold self key ismapping :
  BaseRow._subscript_impl self key ismapping
  = match dict_getitem (_keymap self) key with
    | inr rec => resolved_lookup self key ismapping rec
    | inl (KeyError _) =>
        rec ← ResultMetaData._key_fallback (_parent self) key;
        resolved_lookup self key ismapping rec
    | inl TypeError =>
        if isinstance_slice key then lift (tuple_getitem (_data self) key)
        else raise TypeError
    | inl e => raise e
    end.
Proof. reflexivity. Qed.

Lemma warns_more_refl {A} (x : M A) : warns_more x x.
Proof. split; [reflexivity|]. exists []. rewrite app_nil_r. reflexivity. Qed.

Lemma warns_more_bind {A B} (m : M A) (f g : A -> M B) :
  (forall a, warns_more (f a) (g a)) ->
  warns_more (m ≫= f) (m ≫= g).
Proof.
  intros H. destruct m as [ws [e|a]]; unfold mbind, M_bind.
  - apply warns_more_refl.
  - destruct (H a) as [Ho [ws' Hw]].
    destruct (f a) as [wf rf], (g a) as [wg rg].
    unfold outcome, warnings in *. simpl in *. subst.
    split; [reflexivity|]. exists ws'. rewrite app_assoc. reflexivity.
Qed.

Lemma resolved_lookup_int self key rec :
  isinstance_int key = true ->
  resolved_lookup self key false rec = resolved_lookup self key true rec.
Proof.
  intros Hint. unfold resolved_lookup.
  destruct (tuple_getitem rec (PyInt MD_INDEX)) as [e|mdindex];
    [reflexivity|].
  unfold lift at 1 3. unfold mbind at 1 3, M_bind at 1 3.
  rewrite Hint. simpl. rewrite !andb_false_r. reflexivity.
Qed.

Lemma resolved_lookup_warns_more self key rec :
  outcome (ResultMetaData._warn_for_nonint (_parent self) key) = inr tt ->
  warns_more (resolved_lookup self key false rec)
             (resolved_lookup self key true rec).
Proof.
  intros Hwarn. unfold resolved_lookup.
  destruct (tuple_getitem rec (PyInt MD_INDEX)) as [e|mdindex];
    [apply warns_more_refl|].
  unfold lift at 1 3. unfold mbind at 1 3, M_bind at 1 3. simpl.
  destruct (is_None mdindex); [apply warns_more_refl|].
  simpl. destruct (py_ne mdindex key && negb (isinstance_int key));
    [|apply warns_more_refl].
  destruct (ResultMetaData._warn_for_nonint (_parent self) key) as [wn r].
  unfold outcome in Hwarn. simpl in Hwarn. subst r.
  unfold mbind, M_bind, lift, mret, M_ret.
  destruct (tuple_getitem (_data self) mdindex); simpl;
    (split; [reflexivity|]; exists wn; unfold warnings; simpl;
     rewrite ?app_nil_r; reflexivity).
Qed.

(** X6.  Subscripting a [LegacyRow] and subscripting its mapping run the
    same lookup: with an integer key they are the same computation,
    warnings included, and with any key for which the metadata's
    non-integer warning returns, they have the same outcome, the warnings
    of the mapping lookup coming first among those of the legacy one. *)
Theorem legacy_getitem_vs_mapping (self : row_object) (key : pyval) :
  (isinstance_int key = true ->
   LegacyRow.__getitem__ self key
   = RowMapping.__getitem__ (Row_._mapping self) key)
  /\ (outcome (ResultMetaData._warn_for_nonint (_parent self) key) = inr tt ->
      warns_more (LegacyRow.__getitem__ self key)
                 (RowMapping.__getitem__ (Row_._mapping self) key)).
Proof.
  unfold LegacyRow.__getitem__, RowMapping.__getitem__,
    BaseRow._get_by_key_impl, BaseRow._get_by_key_impl_mapping.
  simpl. rewrite !_subscript_impl_unfold. split.
  - intros Hint.
    destruct (dict_getitem (_keymap self) key) as [e|rec].
    + destruct e; try reflexivity.
      destruct (ResultMetaData._key_fallback (_parent self) key)
        as [ws [e|rec]]; [reflexivity|].
      unfold mbind, M_bind. rewrite (resolved_lookup_int _ _ _ Hint).
      reflexivity.
    + apply resolved_lookup_int, Hint.
  - intros Hwarn.
    destruct (dict_getitem (_keymap self) key) as [e|rec].
    + destruct e; try apply warns_more_refl.
      apply warns_more_bind. intros rec.
      apply resolved_lookup_warns_more, Hwarn.
    + apply resolved_lookup_warns_more, Hwarn.
Qed.

Lemma legacy_getitem_vs_mapping_witness :
  warns_more (LegacyRow.__getitem__ (abc_row class_LegacyRow) (PyStr "c"))
             (RowMapping.__getitem__ (Row_._mapping (abc_row class_LegacyRow))
                (PyStr "c")).
Proof.
  apply (proj2 (legacy_getitem_vs_mapping (abc_row class_LegacyRow)
                  (PyStr "c"))).
  reflexivity.
Defined.

(** ** The mapping and its views, continued *)

Lemma getitem_in_place self (i : nat) k v :
  names_resolve_in_place self ->
  ResultMetaData.keys (_parent self) !! i = Some k ->
  k <> PyNone ->
  _data self !! i = Some v ->
  RowMapping.__getitem__ (Row_._mapping self) k = ([], inr v)
  /\ hashable k = true.
Proof.
  intros Hplace Hk Hnone Hv.
  destruct (Hplace i k Hk Hnone) as (rec & Hrec & Hidx).
  split.
  - unfold RowMapping.__getitem__, BaseRow._get_by_key_impl_mapping. simpl.
    rewrite (_subscript_impl_position self k true [] rec (Z.of_nat i)
               (resolves_keymap _ _ _ Hrec) Hidx). cbn [negb andb].
    destruct (tuple_getitem_index (_data self) (Z.of_nat i)) as (v' & Hv' & ->).
    { apply lookup_lt_Some in Hv. lia. }
    rewrite Nat2Z.id in Hv'. congruence.
  - unfold dict_getitem in Hrec. destruct (hashable k); [reflexivity|].
    discriminate Hrec.
Qed.

Lemma mapM_filter_zip {B} (P : pyval -> Prop) `{!forall k, Decision (P k)}
    (f : pyval -> M B) (g : pyval * pyval -> B) (ks vs : list pyval) :
  length ks = length vs ->
  (forall (i : nat) k v, ks !! i = Some k -> vs !! i = Some v -> P k ->
                         f k = ([], inr (g (k, v)))) ->
  mapM f (filter P ks)
  = ([], inr (g <$> filter (fun kv => P kv.1) (zip ks vs))).
Proof.
  revert vs. induction ks as [|k ks IH]; intros [|v vs] Hlen Hf;
    try discriminate Hlen; [reflexivity|].
  simpl in Hlen. injection Hlen as Hlen.
  assert (IH' := IH vs Hlen (fun i => Hf (S i))).
  simpl zip. rewrite !filter_cons. simpl.
  destruct (decide (P k)) as [HP|HP].
  - simpl. unfold mbind, M_bind.
    rewrite (Hf 0%nat k v eq_refl eq_refl HP), IH'. reflexivity.
  - exact IH'.
Qed.

(** X7.  On a row whose key map holds every name at its position, with
    as many names as values, [items()] of the mapping succeeds without a
    warning, and its pairs are the names, unlabeled positions skipped,
    each with the value stored at the name's position. *)
Theorem mapping_items_pairs (m : mapping_object) :
  names_resolve_in_place (row m) ->
  length (ResultMetaData.keys (_parent (row m))) = length (_data (row m)) ->
  RowMapping.items m
  = ([], inr {| _mapping := m;
                _items := item_pair
                            <$> filter (fun kv => kv.1 <> PyNone)
                                  (zip (ResultMetaData.keys (_parent (row m)))
                                       (_data (row m))) |}).
Proof.
  intros Hplace Hlen. unfold RowMapping.items, RowMapping.keys. simpl.
  rewrite (mapM_filter_zip (fun k => k <> PyNone) _ item_pair
             (ResultMetaData.keys (_parent (row m))) (_data (row m)) Hlen).
  - reflexivity.
  - intros i k v Hk Hv Hnone.
    destruct m as [r]. simpl in *.
    destruct (getitem_in_place r i k v Hplace Hk Hnone Hv) as [Hget _].
    unfold RowMapping.__getitem__ in *. simpl in *.
    unfold mbind, M_bind. rewrite Hget. reflexivity.
Qed.

Lemma abc_names_resolve_in_place cls : names_resolve_in_place (abc_row cls).
Proof.
  intros i k Hk Hnone.
  destruct i as [|[|[|i]]]; simpl in Hk; try discriminate Hk;
    injection Hk as <-; eexists; split; vm_compute; reflexivity.
Qed.

Lemma mapping_items_pairs_witness :
  RowMapping.items (Row_._mapping (abc_row class_Row))
  = ([], inr {| _mapping := Row_._mapping (abc_row class_Row);
                _items := [PyTuple [PyStr "a"; PyInt 1];
                           PyTuple [PyStr "b"; PyInt 2];
                           PyTuple [PyStr "c"; PyInt 3]] |}).
Proof.
  apply (mapping_items_pairs (Row_._mapping (abc_row class_Row))).
  - apply abc_names_resolve_in_place.
  - reflexivity.
Defined.

Lemma dict_update_lookup getitem keys d0 ws d :
  dict_update getitem keys d0 = (ws, inr d) ->
  forall k,
    (k ∈ keys -> exists v, outcome (getitem k) = inr v /\ d !! k = Some v)
    /\ (k ∉ keys -> d !! k = d0 !! k).
Proof.
  revert d0 ws d. induction keys as [|key keys IH]; intros d0 ws d H k.
  - simpl in H. injection H as _ <-. split; [|reflexivity].
    intros Hin. inversion Hin.
  - simpl in H. unfold mbind, M_bind in H.
    destruct (getitem key) as [w1 [e|value]] eqn:Hget; [discriminate H|].
    unfold dict_setitem, lift in H.
    destruct (hashable key); [|discriminate H].
    destruct (dict_update getitem keys (<[key:=value]> d0)) as [w2 r] eqn:Hup.
    simpl in H. injection H as _ ->.
    destruct (IH _ _ _ Hup k) as [IHin IHout].
    destruct (decide (k ∈ keys)) as [Hk|Hk].
    + split; [intros _; apply IHin, Hk|].
      intros Hnot. exfalso. apply Hnot. right. exact Hk.
    + split.
      * intros Hin. apply elem_of_cons in Hin as [->|Hin]; [|contradiction].
        exists value. rewrite Hget. split; [reflexivity|].
        rewrite (IHout Hk). apply lookup_insert_eq.
      * intros Hnot. rewrite (IHout Hk).
        apply lookup_insert_ne. intros ->. apply Hnot. left.
Qed.

Lemma dict_update_total getitem keys d0 :
  Forall (fun k => hashable k = true
                   /\ exists v, getitem k = ([], inr v)) keys ->
  exists d, dict_update getitem keys d0 = ([], inr d).
Proof.
  intros H. revert d0. induction H as [|k keys [Hh [v Hv]] _ IH]; intros d0.
  - exists d0. reflexivity.
  - simpl. unfold mbind, M_bind, dict_setitem, lift. rewrite Hv, Hh.
    destruct (IH (<[k:=v]> d0)) as [d Hd]. rewrite Hd. eauto.
Qed.

(** X8.  The dictionary [_asdict()] returns has exactly the names of the
    mapping as its keys, each bound to what the mapping gives for it
    (so a name met twice is bound once, to that one value).  On a row
    whose key map holds every name at its position, with as many names
    as values, [_asdict()] does return, without a warning, and binds
    each name to the value stored at the name's position. *)
Theorem asdict_binds_names (self : row_object) :
  (forall ws d,
     _asdict self = (ws, inr d) ->
     forall k v,
       d !! k = Some v
       <-> k ∈ RowMapping.__iter__ (Row_._mapping self)
           /\ outcome (RowMapping.__getitem__ (Row_._mapping self) k) = inr v)
  /\ (names_resolve_in_place self ->
      length (ResultMetaData.keys (_parent self)) = length (_data self) ->
      exists d,
        _asdict self = ([], inr d)
        /\ forall (i : nat) k v,
             ResultMetaData.keys (_parent self) !! i = Some k ->
             k <> PyNone ->
             _data self !! i = Some v ->
             d !! k = Some v).
Proof.
  split.
  - intros ws d H k v. unfold _asdict in H.
    destruct (dict_update_lookup _ _ _ _ _ H k) as [Hin Hout].
    change (ROMappingView.__iter__ (RowMapping.keys (Row_._mapping self)))
      with (RowMapping.__iter__ (Row_._mapping self)) in *.
    destruct (decide (k ∈ RowMapping.__iter__ (Row_._mapping self)))
      as [Hk|Hk].
    + destruct (Hin Hk) as (v' & Hv' & Hd). rewrite Hd. split.
      * intros [= <-]. auto.
      * intros [_ Hv]. congruence.
    + rewrite (Hout Hk), lookup_empty. split; [discriminate|].
      intros [Hk' _]. contradiction.
  - intros Hplace Hlen.
    assert (Hall : Forall (fun k =>
                     hashable k = true
                     /\ exists v, RowMapping.__getitem__ (Row_._mapping self) k
                                  = ([], inr v))
                   (RowMapping.__iter__ (Row_._mapping self))).
    { apply Forall_forall. intros k Hk. unfold RowMapping.__iter__ in Hk.
      apply list_elem_of_filter in Hk as [Hnone Hk].
      apply list_elem_of_lookup in Hk as [i Hi]. simpl in Hi.
      destruct (lookup_lt_is_Some_2 (_data self) i) as [v Hv].
      { rewrite <- Hlen. eapply lookup_lt_Some, Hi. }
      destruct (getitem_in_place self i k v Hplace Hi Hnone Hv) as [Hg Hh].
      eauto. }
    destruct (dict_update_total _ _ ∅ Hall) as [d Hd].
    exists d. split; [exact Hd|].
    intros i k v Hk Hnone Hv.
    destruct (dict_update_lookup _ _ _ _ _ Hd k) as [Hin _].
    destruct Hin as (v' & Hv' & Hdk).
    { unfold RowMapping.__iter__. apply list_elem_of_filter. split; [exact Hnone|].
      apply list_elem_of_lookup. exists i. exact Hk. }
    destruct (getitem_in_place self i k v Hplace Hk Hnone Hv) as [Hg _].
    rewrite Hg in Hv'. simpl in Hv'. congruence.
Qed.

Lemma asdict_binds_names_witness :
  exists d,
    _asdict (abc_row class_Row) = ([], inr d)
    /\ forall (i : nat) k v,
         ResultMetaData.keys (_parent (abc_row class_Row)) !! i = Some k ->
         k <> PyNone ->
         _data (abc_row class_Row) !! i = Some v ->
         d !! k = Some v.
Proof.
  apply (proj2 (asdict_binds_names (abc_row class_Row))).
  - apply abc_names_resolve_in_place.
  - reflexivity.
Defined.

Lemma length_filter_all {A} (P : A -> Prop) `{!forall x, Decision (P x)}
    (l : list A) :
  length (filter P l) = length l <-> Forall P l.
Proof.
  induction l as [|x l IH]; simpl.
  - split; [constructor | reflexivity].
  - rewrite filter_cons. destruct (decide (P x)) as [HP|HP]; simpl.
    + rewrite Forall_cons. split.
      * intros [= Hl]. split; [exact HP | apply IH, Hl].
      * intros [_ Hl]. f_equal. apply IH, Hl.
    + split.
      * intros Hl. pose proof (length_filter P l). lia.
      * intros Hl. apply Forall_cons in Hl as [HP' _]. contradiction.
Qed.

(** X9.  The values view always has the length of the mapping, and an
    items view that could be built has the length of the keys view.
    With one entry of the metadata's [keys] per stored value, the keys
    view has the length of the mapping exactly when no entry is [None]. *)
Theorem view_lengths (m : mapping_object) :
  ROMappingView.__len__ (RowMapping.values m) = RowMapping.__len__ m
  /\ (forall ws v,
        RowMapping.items m = (ws, inr v) ->
        ROMappingView.__len__ v = ROMappingView.__len__ (RowMapping.keys m))
  /\ (length (ResultMetaData.keys (_parent (row m)))
        = length (_data (row m)) ->
      (ROMappingView.__len__ (RowMapping.keys m) = RowMapping.__len__ m
       <-> PyNone ∉ ResultMetaData.keys (_parent (row m)))).
Proof.
  split; [reflexivity|]. split.
  - intros ws v. unfold RowMapping.items, mbind, M_bind.
    destruct (mapM _ _) as [w [e|pairs]] eqn:Hm; [discriminate|].
    simpl. intros [= _ <-]. apply mapM_inr, Forall2_length in Hm.
    unfold ROMappingView.__len__. simpl. symmetry. exact Hm.
  - intros Hlen. unfold ROMappingView.__len__, RowMapping.__len__,
      BaseRow.__len__, RowMapping.keys. simpl.
    rewrite <- Hlen, length_filter_all, Forall_forall.
    split.
    + intros H Hin. apply (H PyNone Hin). reflexivity.
    + intros H k Hk ->. contradiction.
Qed.

Lemma view_lengths_witness :
  ROMappingView.__len__ (RowMapping.keys (Row_._mapping (dup_row class_Row)))
    = RowMapping.__len__ (Row_._mapping (dup_row class_Row))
  <-> PyNone ∉ ResultMetaData.keys (_parent (row (Row_._mapping
                                                    (dup_row class_Row)))).
Proof.
  apply (proj2 (proj2 (view_lengths (Row_._mapping (dup_row class_Row))))).
  reflexivity.
Defined.

Lemma list_eq_sym a b : list_eq a b = list_eq b a.
Proof.
  destruct (list_eq a b) eqn:E1, (list_eq b a) eqn:E2; try reflexivity.
  - apply list_eq_spec in E1. subst.
    rewrite (proj2 (list_eq_spec b b) eq_refl) in E2. discriminate E2.
  - apply list_eq_spec in E2. subst.
    rewrite (proj2 (list_eq_spec a a) eq_refl) in E1. discriminate E1.
Qed.

(** X10.  On a view, [!=] is the negation of [==], failure included:
    compared with something that is not iterable ([None], an integer, a
    column, a slice) both raise [TypeError] instead of answering.  A view
    equals itself, two views compare the same in either order, and the
    keys views of two rows of one metadata are equal. *)
Theorem view_eq_laws (self : view_object) :
  (forall other,
     ROMappingView.__ne__ self other
     = negated (ROMappingView.__eq__ self other))
  /\ (forall v,
        py_list v = inl TypeError ->
        ROMappingView.__eq__ self (IterValue v) = inl TypeError
        /\ ROMappingView.__ne__ self (IterValue v) = inl TypeError)
  /\ (forall v,
        v = PyNone \/ (exists z, v = PyInt z) \/ (exists c, v = PyColumn c)
        \/ (exists a b c, v = PySlice a b c) ->
        py_list v = inl TypeError)
  /\ ROMappingView.__eq__ self (IterView self) = inr true
  /\ (forall other : view_object,
        ROMappingView.__eq__ self (IterView other)
        = ROMappingView.__eq__ other (IterView self))
  /\ (forall r1 r2 : row_object,
        _parent r1 = _parent r2 ->
        ROMappingView.__eq__ (RowMapping.keys (Row_._mapping r1))
          (IterView (RowMapping.keys (Row_._mapping r2))) = inr true).
Proof.
  unfold ROMappingView.__eq__, ROMappingView.__ne__, ROMappingView.__iter__.
  split; [intros other; destruct (list_of other); reflexivity|].
  split; [intros v H; simpl; rewrite H; auto|].
  split.
  { intros v [->|[[z ->]|[[c ->]|(a & b & c & ->)]]]; reflexivity. }
  split; [simpl; f_equal; apply list_eq_spec; reflexivity|].
  split; [intros other; simpl; f_equal; apply list_eq_sym|].
  intros r1 r2 Hp. simpl. rewrite Hp. f_equal. apply list_eq_spec. reflexivity.
Qed.

Lemma view_eq_laws_witness :
  ROMappingView.__eq__ (RowMapping.keys (Row_._mapping (abc_row class_Row)))
    (IterValue (PyInt 5)) = inl TypeError
  /\ ROMappingView.__ne__ (RowMapping.keys (Row_._mapping (abc_row class_Row)))
       (IterValue (PyInt 5)) = inl TypeError.
Proof.
  apply (proj1 (proj2 (view_eq_laws
                         (RowMapping.keys (Row_._mapping (abc_row class_Row)))))
           (PyInt 5)).
  reflexivity.
Defined.

(** ** Comparison and hashing, continued *)


Lemma holds_mirror op c :
  operator.holds (mirror op) (CompOpp c) = operator.holds op c.
Proof. destruct op, c; reflexivity. Qed.

Lemma py_eq_sym v w : py_eq v w = py_eq w v.
Proof.
  destruct (py_eq v w) eqn:E1, (py_eq w v) eqn:E2; try reflexivity.
  - apply py_eq_spec in E1. subst. rewrite py_eq_refl in E2. discriminate E2.
  - apply py_eq_spec in E2. subst. rewrite py_eq_refl in E1. discriminate E1.
Qed.


Lemma atom_richcompare_mirror op v w :
  atom_richcompare (mirror op) w v = atom_richcompare op v w.
Proof.
  destruct v, w; cbn -[operator.holds];
    try (destruct op; simpl; unfold py_ne; rewrite ?(py_eq_sym (PyNone));
         reflexivity).
  all: try (destruct op; cbn -[operator.holds py_eq]; unfold py_ne;
            first [rewrite (py_eq_sym _ _); reflexivity | reflexivity]).
  - rewrite (Z.compare_antisym z z0). rewrite holds_mirror. reflexivity.
  - rewrite (String.compare_antisym s0 s). rewrite holds_mirror. reflexivity.
Qed.


Lemma seq_richcompare_mirror cmp op v :
  Forall (fun x => forall op y, cmp (mirror op) y x = cmp op x y) v ->
  forall w, seq_richcompare cmp (mirror op) w v = seq_richcompare cmp op v w.
Proof.
  induction 1 as [|x v Hx _ IH]; intros [|y w]; cbn -[operator.holds];
    try (rewrite Z.compare_antisym, holds_mirror; reflexivity).
  rewrite (py_eq_sym y x). destruct (py_eq x y); [apply IH|].
  destruct op; try reflexivity; apply Hx.
Qed.


Lemma py_richcompare_mirror op v w :
  py_richcompare (mirror op) w v = py_richcompare op v w.
Proof.
  revert op w.
  induction v as [| | | | |l IH|l IH] using pyval_nested_ind; intros op w;
    destruct w; try apply atom_richcompare_mirror.
  - cbn -[seq_richcompare]. apply seq_richcompare_mirror.
    repeat constructor; intros; apply atom_richcompare_mirror.
  - simpl. apply seq_richcompare_mirror. exact IH.
  - simpl. apply seq_richcompare_mirror. exact IH.
Qed.


(** X12.  Between two rows, exchanging the operands and mirroring the
    operator changes nothing, not even a failure: [a < b] is [b > a],
    [a <= b] is [b >= a], and [==] and [!=] are symmetric. *)
Theorem row_op_mirror (a b : row_object) (op : operator.t) :
  Row_._op b (OtherRow a) (mirror op) = Row_._op a (OtherRow b) op
  /\ Row_.__gt__ b (OtherRow a) = Row_.__lt__ a (OtherRow b)
  /\ Row_.__ge__ b (OtherRow a) = Row_.__le__ a (OtherRow b)
  /\ Row_.__eq__ b (OtherRow a) = Row_.__eq__ a (OtherRow b)
  /\ Row_.__ne__ b (OtherRow a) = Row_.__ne__ a (OtherRow b).
Proof.
  assert (H : forall op, Row_._op b (OtherRow a) (mirror op)
                         = Row_._op a (OtherRow b) op).
  { intros op'. apply py_richcompare_mirror. }
  split; [apply H|]. split; [apply (H operator.lt)|].
  split; [apply (H operator.le)|].
  split; [apply (H operator.eq) | apply (H operator.ne)].
Qed.

(** X13.  [==] on a row never raises.  Between two rows it answers
    whether the stored values are the same, so rows that compare equal
    hash alike, and every operator on two rows with the same values
    answers as for equal operands: [==], [<=], [>=] true, the others
    false. *)
Theorem row_eq_and_hash (a : row_object) :
  (forall other, exists answer, Row_.__eq__ a other = inr answer)
  /\ (forall b, Row_.__eq__ a (OtherRow b) = inr true <-> _data a = _data b)
  /\ (forall (hash : pyval -> exn + Z) b,
        Row_.__eq__ a (OtherRow b) = inr true ->
        Row_.__hash__ hash a = Row_.__hash__ hash b)
  /\ (forall b op,
        _data a = _data b ->
        Row_._op a (OtherRow b) op = inr (operator.holds op Eq)).
Proof.
  assert (Heq : forall b, Row_.__eq__ a (OtherRow b) = inr true
                          <-> _data a = _data b).
  { intros b. unfold Row_.__eq__, Row_._op, BaseRow.__iter__.
    rewrite py_richcompare_eq. simpl. split.
    - intros [= H]. apply (seq_eq_spec py_eq).
      + apply Forall_forall. intros x _ y. apply py_eq_spec.
      + exact H.
    - intros ->. f_equal. apply (list_eq_spec (_data b) (_data b)).
      reflexivity. }
  split; [|split; [exact Heq|split]].
  - intros other. unfold Row_.__eq__, Row_._op.
    destruct other; rewrite py_richcompare_eq; eauto.
  - intros hash b H. apply Heq in H.
    unfold Row_.__hash__, BaseRow.__hash__. rewrite H. reflexivity.
  - intros b op H.
    apply (lexicographic_seq_richcompare op (_data a) (_data b)).
    rewrite H. apply lex_same.
Qed.

Lemma row_eq_and_hash_witness :
  Row_._op (abc_row class_Row) (OtherRow (abc_row class_LegacyRow)) operator.le
  = inr true.
Proof.
  apply (proj2 (proj2 (proj2 (row_eq_and_hash (abc_row class_Row))))
           (abc_row class_LegacyRow) operator.le).
  reflexivity.
Defined.

Lemma seq_richcompare_ints (v w : list pyval) :
  Forall (fun x => exists z, x = PyInt z) v ->
  Forall (fun x => exists z, x = PyInt z) w ->
  exists c, forall op,
    seq_richcompare py_richcompare op v w = inr (operator.holds op c).
Proof.
  intros Hv. revert w. induction Hv as [|x v [zx ->] _ IH]; intros w Hw.
  - destruct w; eexists; intros op; reflexivity.
  - destruct Hw as [|y w [zy ->] Hw].
    + eexists. intros op. reflexivity.
    + cbn -[operator.holds]. destruct (Z.eqb_spec zx zy) as [->|Hne].
      * apply IH, Hw.
      * exists (zx ?= zy). intros op.
        assert (Hc : (zx ?= zy) <> Eq)
          by (intros Hc; apply Z.compare_eq in Hc; contradiction).
        destruct op; try reflexivity;
          destruct (zx ?= zy); try reflexivity; contradiction.
Qed.

(** X14.  Two rows that store integers only are always comparable: no
    operator raises, the six operators answer according to one and the
    same three-way comparison of the rows, and so exactly one of [<],
    [==], [>] is true. *)
Theorem int_rows_totally_ordered (a b : row_object) :
  Forall (fun x => exists z, x = PyInt z) (_data a) ->
  Forall (fun x => exists z, x = PyInt z) (_data b) ->
  (exists c, forall op,
     Row_._op a (OtherRow b) op = inr (operator.holds op c))
  /\ ((Row_.__lt__ a (OtherRow b) = inr true
       /\ Row_.__eq__ a (OtherRow b) = inr false
       /\ Row_.__gt__ a (OtherRow b) = inr false)
      \/ (Row_.__lt__ a (OtherRow b) = inr false
          /\ Row_.__eq__ a (OtherRow b) = inr true
          /\ Row_.__gt__ a (OtherRow b) = inr false)
      \/ (Row_.__lt__ a (OtherRow b) = inr false
          /\ Row_.__eq__ a (OtherRow b) = inr false
          /\ Row_.__gt__ a (OtherRow b) = inr true)).
Proof.
  intros Ha Hb.
  destruct (seq_richcompare_ints _ _ Ha Hb) as [c Hc].
  assert (H : forall op, Row_._op a (OtherRow b) op
                         = inr (operator.holds op c)) by exact Hc.
  split; [exists c; exact H|].
  unfold Row_.__lt__, Row_.__eq__, Row_.__gt__. rewrite !H.
  destruct c; simpl; auto.
Qed.

Lemma int_rows_totally_ordered_witness :
  exists c, forall op,
    Row_._op (abc_row class_Row) (OtherRow (dup_row class_Row)) op
    = inr (operator.holds op c).
Proof.
  apply (proj1 (int_rows_totally_ordered (abc_row class_Row)
                  (dup_row class_Row)
                  ltac:(repeat constructor; eexists; reflexivity)
                  ltac:(repeat constructor; eexists; reflexivity))).
Defined.

(** ** Tuple subscription, continued *)

(** X15.  [x in row] holds exactly when [row[i]] is [x] for some [i] in
    [[0, n)]; and for such an [i], [row[i - n]] is [row[i]]. *)
Theorem row_contains_iff_indexed (self : row_object) :
  let n := Z.of_nat (length (_data self)) in
  (forall x,
     Row_.__contains__ self x = true
     <-> exists i, 0 <= i < n /\ Row_.__getitem__ self (PyInt i) = inr x)
  /\ (forall i, 0 <= i < n ->
        Row_.__getitem__ self (PyInt (i - n))
        = Row_.__getitem__ self (PyInt i)).
Proof.
  intros n. unfold Row_.__contains__, Row_.__getitem__. split.
  - intros x. rewrite seq_contains_spec, <- list_elem_of_In,
      list_elem_of_lookup. split.
    + intros [j Hj]. exists (Z.of_nat j).
      pose proof (lookup_lt_Some _ _ _ Hj).
      split; [unfold n; lia|].
      destruct (tuple_getitem_index (_data self) (Z.of_nat j))
        as (v & Hv & ->); [lia|].
      rewrite Nat2Z.id in Hv. congruence.
    + intros (i & Hi & Hget).
      destruct (tuple_getitem_index (_data self) i Hi) as (v & Hv & Hget').
      exists (Z.to_nat i). congruence.
  - intros i Hi.
    destruct (tuple_getitem_index (_data self) i Hi) as (v & Hv & ->).
    destruct (tuple_getitem_from_end (_data self) (i - n))
      as (v' & Hv' & ->); [unfold n in *; lia|].
    fold n in Hv'. replace (n + (i - n)) with i in Hv' by lia. congruence.
Qed.

Lemma row_contains_iff_indexed_witness :
  Row_.__getitem__ (abc_row class_Row) (PyInt (2 - 3))
  = Row_.__getitem__ (abc_row class_Row) (PyInt 2).
Proof.
  apply (proj2 (row_contains_iff_indexed (abc_row class_Row)) 2).
  simpl. lia.
Defined.

Lemma slice_items_reverse (t : list pyval) :
  slice_items t (Z.of_nat (length t) - 1) (-1) (Z.of_nat (length t))
  = reverse t.
Proof.
  destruct (slice_items_lookup t (Z.of_nat (length t) - 1) (-1)
              (Z.of_nat (length t))) as [Hlen Hlook]; [lia|lia|].
  apply list_eq_same_length with (length t).
  - apply length_reverse.
  - rewrite Hlen. lia.
  - intros j x y Hj Hx Hy.
    destruct (Hlook j ltac:(lia)) as (v & Hv1 & Hv2).
    rewrite reverse_lookup in Hy by exact Hj.
    replace (Z.to_nat (Z.of_nat (length t) - 1 + Z.of_nat j * -1))
      with (length t - S j)%nat in Hv2 by lia.
    congruence.
Qed.

(** X16.  [row[:]] is the tuple of all the values and [row[::-1]] the
    tuple of the values in reverse order. *)
Theorem row_full_and_reversed_slice (self : row_object) :
  Row_.__getitem__ self (PySlice None None None) = inr (PyTuple (_data self))
  /\ Row_.__getitem__ self (PySlice None None (Some (-1)))
     = inr (PyTuple (reverse (_data self))).
Proof.
  unfold Row_.__getitem__, tuple_getitem. split.
  - unfold slice_indices. simpl.
    destruct (Z.ltb_spec 0 (Z.of_nat (length (_data self)))) as [Hlt|Hge].
    + rewrite Z.div_1_r.
      replace (Z.of_nat (length (_data self)) - 0 - 1 + 1)
        with (Z.of_nat (length (_data self)) - 0) by lia.
      rewrite (slice_items_contiguous (_data self) 0
                 (Z.of_nat (length (_data self)))) by lia.
      rewrite Z.sub_0_r, Nat2Z.id. simpl. rewrite firstn_all. reflexivity.
    + destruct (_data self); [reflexivity | simpl in Hge; lia].
  - unfold slice_indices. simpl.
    destruct (Z.ltb_spec (-1) (Z.of_nat (length (_data self)) - 1))
      as [Hlt|Hge].
    + rewrite Z.div_1_r.
      replace (Z.of_nat (length (_data self)) - 1 - -1 - 1 + 1)
        with (Z.of_nat (length (_data self))) by lia.
      rewrite slice_items_reverse. reflexivity.
    + destruct (_data self); [reflexivity | simpl in Hge; lia].
Qed.

(** ** Construction, continued *)

Lemma mapM_app_fail {A B} (f : A -> M B) (l1 l2 : list A) (x : A)
    ws1 ys1 w e :
  mapM f l1 = (ws1, inr ys1) ->
  f x = (w, inl e) ->
  mapM f (l1 ++ x :: l2) = (ws1 ++ w, inl e).
Proof.
  revert ws1 ys1. induction l1 as [|a l1 IH]; simpl; intros ws1 ys1 H1 Hx.
  - injection H1 as <- _. unfold mbind, M_bind. rewrite Hx. reflexivity.
  - unfold mbind, M_bind in *.
    destruct (f a) as [wa [ea|ya]]; [discriminate H1|].
    destruct (mapM f l1) as [wl [el|yl]] eqn:Hl; [discriminate H1|].
    simpl in H1. injection H1 as <- _.
    rewrite (IH wl yl eq_refl Hx). rewrite app_nil_r, app_assoc.
    reflexivity.
Qed.

Lemma mapM_warnings {A B} (f : A -> M B) (l : list A) ws ys :
  mapM f l = (ws, inr ys) ->
  ws = concat (map (fun x => warnings (f x)) l).
Proof.
  revert ws ys. induction l as [|a l IH]; simpl; intros ws ys H.
  - injection H as <- _. reflexivity.
  - unfold mbind, M_bind in H.
    destruct (f a) as [wa [ea|ya]]; [discriminate H|].
    destruct (mapM f l) as [wl [el|yl]] eqn:Hl; [discriminate H|].
    simpl in H. injection H as <- _.
    rewrite (IH wl yl eq_refl), app_nil_r. reflexivity.
Qed.

(** X17.  Construction converts the values in the order of the columns
    and stops at the first converter that raises: the exception is the
    converter's, the warnings are those of the conversions up to and
    including it, and the converters of the later columns are not run.
    When a row is built, the warnings are those of all the conversions,
    in the order of the columns. *)
Theorem init_conversion_order (cls : row_class) (parent : ResultMetaData.t)
    (keymap : gmap pyval (list pyval)) :
  (forall ps1 p ps2 ds1 d ds2 ws1 vs1 w e,
     length ps1 = length ds1 ->
     mapM (fun '(proc, value) => convert proc value) (zip ps1 ds1)
       = (ws1, inr vs1) ->
     convert p d = (w, inl e) ->
     BaseRow.__init__ cls parent (ps1 ++ p :: ps2) keymap (ds1 ++ d :: ds2)
     = (ws1 ++ w, inl e))
  /\ (forall processors data ws self,
        BaseRow.__init__ cls parent processors keymap data = (ws, inr self) ->
        ws = concat (map (fun pv => warnings (convert pv.1 pv.2))
                         (zip processors data))).
Proof.
  split.
  - intros ps1 p ps2 ds1 d ds2 ws1 vs1 w e Hlen H1 Hp.
    unfold BaseRow.__init__.
    rewrite zip_with_app by exact Hlen. simpl.
    rewrite (mapM_app_fail _ (zip ps1 ds1) (zip ps2 ds2) (p, d)
               ws1 vs1 w e H1 Hp).
    reflexivity.
  - intros processors data ws self. unfold BaseRow.__init__.
    unfold mbind at 1, M_bind at 1.
    destruct (mapM _ (zip processors data)) as [w [e|values]] eqn:Hm;
      [discriminate|].
    simpl. intros [= <- _]. rewrite app_nil_r.
    rewrite (mapM_warnings _ _ _ _ Hm). f_equal.
    apply map_ext. intros [p d]. reflexivity.
Qed.

Lemma init_conversion_order_witness :
  BaseRow.__init__ class_Row abc_metadata
    ([None] ++ Some (fun _ => raise ValueError) :: [None]) abc_keymap
    ([PyInt 1] ++ PyStr "x" :: [PyInt 3])
  = ([] ++ [], inl ValueError).
Proof.
  apply (proj1 (init_conversion_order class_Row abc_metadata abc_keymap)
           [None] (Some (fun _ => raise ValueError)) [None]
           [PyInt 1] (PyStr "x") [PyInt 3] [] [PyInt 1] [] ValueError);
    reflexivity.
Defined.

(** ** Views and positions *)

(** X18.  [item in view] holds exactly for the items the view iterates
    over.  So a key is in [keys()] exactly when it is an entry of the
    metadata's [keys] other than [None] -- [None] is never in [keys()] --
    and a value is in [values()] exactly when it is in the strict row. *)
Theorem view_contains (m : mapping_object) :
  (forall (v : view_object) x,
     ROMappingView.__contains__ v x = true <-> x ∈ ROMappingView.__iter__ v)
  /\ (forall k,
        ROMappingView.__contains__ (RowMapping.keys m) k = true
        <-> k ∈ ResultMetaData.keys (_parent (row m)) /\ k <> PyNone)
  /\ ROMappingView.__contains__ (RowMapping.keys m) PyNone = false
  /\ (forall x,
        ROMappingView.__contains__ (RowMapping.values m) x
        = Row_.__contains__ (row m) x).
Proof.
  assert (H : forall (v : view_object) x,
            ROMappingView.__contains__ v x = true
            <-> x ∈ ROMappingView.__iter__ v).
  { intros v x. unfold ROMappingView.__contains__, ROMappingView.__iter__.
    rewrite seq_contains_spec. symmetry. apply list_elem_of_In. }
  assert (Hk : forall k,
            ROMappingView.__contains__ (RowMapping.keys m) k = true
            <-> k ∈ ResultMetaData.keys (_parent (row m)) /\ k <> PyNone).
  { intros k. rewrite H. unfold ROMappingView.__iter__, RowMapping.keys.
    simpl. rewrite list_elem_of_filter. tauto. }
  split; [exact H|]. split; [exact Hk|]. split; [|reflexivity].
  destruct (ROMappingView.__contains__ (RowMapping.keys m) PyNone) eqn:E;
    [|reflexivity].
  apply Hk in E as [_ E]. contradiction.
Qed.

(** X19.  A key whose record holds a position outside [[-n, n)], [n]
    being the number of stored values, makes the mapping lookup raise
    [IndexError]; attribute access lets that exception through as it
    is. *)
Theorem position_out_of_range (self : row_object) (key : pyval)
    (ws : list warning) (rec : list pyval) (i : Z) :
  resolves_to self key ws rec ->
  tuple_getitem rec (PyInt MD_INDEX) = inr (PyInt i) ->
  i < - Z.of_nat (length (_data self)) \/ Z.of_nat (length (_data self)) <= i ->
  RowMapping.__getitem__ (Row_._mapping self) key = (ws, inl IndexError)
  /\ (forall name, key = PyStr name ->
        BaseRow.__getattr__ self name = (ws, inl IndexError)).
Proof.
  intros Hres Hidx Hi.
  assert (H : BaseRow._subscript_impl self key true = (ws, inl IndexError)).
  { rewrite (_subscript_impl_position self key true ws rec i Hres Hidx).
    cbn [negb andb].
    rewrite (tuple_getitem_out_of_range (_data self) i Hi). reflexivity. }
  split; [exact H|].
  intros name ->. unfold BaseRow.__getattr__, BaseRow._get_by_key_impl_mapping.
  rewrite H. reflexivity.
Qed.

Lemma position_out_of_range_witness :
  RowMapping.__getitem__
    (Row_._mapping {| __class__ := class_Row; _parent := abc_metadata;
                     _data := [PyInt 1; PyInt 2]; _keymap := abc_keymap |})
    (PyStr "c") = ([], inl IndexError)
  /\ (forall name, PyStr "c" = PyStr name ->
        BaseRow.__getattr__
          {| __class__ := class_Row; _parent := abc_metadata;
             _data := [PyInt 1; PyInt 2]; _keymap := abc_keymap |} name
        = ([], inl IndexError)).
Proof.
  apply (position_out_of_range
           {| __class__ := class_Row; _parent := abc_metadata;
              _data := [PyInt 1; PyInt 2]; _keymap := abc_keymap |}
           (PyStr "c") [] [PyInt 2; PyStr "c"] 2).
  - apply resolves_keymap. vm_compute. reflexivity.
  - reflexivity.
  - right. simpl. lia.
Defined.
